(** * Backend-thesis: profile verification codes and the notification feed

    A shallow embedding of [app/services/profiles.py] (class [ProfileStore])
    and of [list_notifications] in [app/routers/notifications.py], with the
    properties of the verification-code life cycle, of partial profile
    updates and of the notification listing.

    Conventions of the embedding:
    - a [datetime] is the number of microseconds since the epoch, a
      [timedelta] a number of microseconds; both are integers, so that
      [(a - b).total_seconds() < 60] is [a - b < 60 * 10^6];
    - a Python [str] is a [string]; [lower] and [strip] are the ASCII
      fragments of [str.lower] and [str.strip];
    - a nullable column is an [option];
    - the tables [UserAccount] and [UserProfile] are finite maps from their
      unique key (username, user id) to the other columns, the table
      [Notification] is a list of rows;
    - [async with session_factory() as session] is a run of a state and
      exception monad over a pair (committed database, working copy): only
      [commit] publishes the working copy. *)

From Stdlib Require Import ZArith Ascii String DecimalString.
From Stdlib Require DecimalFacts DecimalPos DecimalN.
From stdpp Require Import base option list gmap strings sorting.

Local Open Scope string_scope.
Local Open Scope Z_scope.

(** ** Python strings *)

Module Py.

(** [c.isspace()] for a code point below 128: TAB, LF, VT, FF, CR, the
    four separators FS GS RS US, and the space. *)
Definition isspace (c : ascii) : bool :=
  let n := nat_of_ascii c in
  ((9 <=? n) && (n <=? 13) || (28 <=? n) && (n <=? 32))%nat.

Definition lower_char (c : ascii) : ascii :=
  let n := nat_of_ascii c in
  if ((65 <=? n) && (n <=? 90))%nat then ascii_of_nat (n + 32) else c.

(** [s.lower()] *)
Fixpoint lower (s : string) : string :=
  match s with
  | EmptyString => EmptyString
  | String c r => String (lower_char c) (lower r)
  end.

Fixpoint lstrip (s : string) : string :=
  match s with
  | EmptyString => EmptyString
  | String c r => if isspace c then lstrip r else s
  end.

Fixpoint rstrip (s : string) : string :=
  match s with
  | EmptyString => EmptyString
  | String c r =>
      match rstrip r with
      | EmptyString => if isspace c then EmptyString else String c EmptyString
      | r' => String c r'
      end
  end.

(** [s.strip()] *)
Definition strip (s : string) : string := rstrip (lstrip s).

(** Truth value of a [str]: the empty string is false. *)
Definition truthy (s : string) : bool :=
  match s with EmptyString => false | _ => true end.

(** Truth value of an optional [str]: [None] and [''] are false. *)
Definition truthy_opt (o : option string) : bool :=
  match o with Some s => truthy s | None => false end.

(** [s or None] *)
Definition or_None (s : string) : option string :=
  if truthy s then Some s else None.

Fixpoint zeros (n : nat) : string :=
  match n with O => EmptyString | S k => String "0" (zeros k) end.

(** [f"{n:0{w}d}"] for [n >= 0]: decimal digits, padded on the left with
    zeros up to the width. *)
Definition format_0d (w : nat) (n : Z) : string :=
  let d := NilZero.string_of_uint (N.to_uint (Z.to_N n)) in
  let d := if truthy d then d else "0" in
  String.append (zeros (w - String.length d)) d.

(** [all(f(c) for c in s)] *)
Fixpoint all (f : ascii → bool) (s : string) : bool :=
  match s with
  | EmptyString => true
  | String c r => f c && all f r
  end.

(** [c.isdigit()] for a code point below 128. *)
Definition isdigit (c : ascii) : bool :=
  let n := nat_of_ascii c in ((48 <=? n) && (n <=? 57))%nat.

(** [int(s)] for a string of decimal digits; [None] stands for the
    [ValueError] on another string. *)
Definition int (s : string) : option Z :=
  (λ d, Z.of_N (N.of_uint d)) <$> NilZero.uint_of_string s.

End Py.

(** ** Time *)

Definition datetime := Z.
Definition timedelta := Z.

Definition timedelta_seconds (s : Z) : timedelta := s * 1000000.
Definition timedelta_minutes (m : Z) : timedelta := timedelta_seconds (m * 60).

Definition CODE_TTL_MINUTES : Z := 15.
Definition REQUEST_COOLDOWN_SECONDS : Z := 60.

(** ** Rows *)

(** A value of a JSON column, kept opaque. *)
Definition JsonValue := string.

Record UserAccount := mkUserAccount {
  id : Z;
  username : string;
  role : string;
}.

(** A row of [UserAccount] without its key column [username]. *)
Record AccountRow := mkAccountRow {
  row_id : Z;
  row_role : string;
}.

(** A row of [UserProfile] without its key column [user_id]. The store
    reads [updated_at] and never assigns it. *)
Record UserProfile := mkUserProfile {
  email : option string;
  email_verified_at : option datetime;
  phone_e164 : option string;
  phone_verified_at : option datetime;
  verify_email_code_hash : option string;
  verify_phone_code_hash : option string;
  verify_expires_at : option datetime;
  verify_requested_at : option datetime;
  first_name : option string;
  last_name : option string;
  display_name : option string;
  avatar_url : option string;
  bio : option string;
  timezone : option string;
  locale : option string;
  marketing_opt_in : option bool;
  notify_prefs : option (gmap string JsonValue);
  updated_at : option datetime;
}.

(** Attribute assignment [profile.f = v], one function per attribute the
    store writes. *)
Definition set_email (v : option string) (p : UserProfile)
  : UserProfile :=
  mkUserProfile v (email_verified_at p) (phone_e164 p) (phone_verified_at p)
    (verify_email_code_hash p) (verify_phone_code_hash p) (verify_expires_at
    p) (verify_requested_at p) (first_name p) (last_name p) (display_name p)
    (avatar_url p) (bio p) (timezone p) (locale p) (marketing_opt_in p)
    (notify_prefs p) (updated_at p).

Definition set_email_verified_at (v : option datetime) (p : UserProfile)
  : UserProfile :=
  mkUserProfile (email p) v (phone_e164 p) (phone_verified_at p)
    (verify_email_code_hash p) (verify_phone_code_hash p) (verify_expires_at
    p) (verify_requested_at p) (first_name p) (last_name p) (display_name p)
    (avatar_url p) (bio p) (timezone p) (locale p) (marketing_opt_in p)
    (notify_prefs p) (updated_at p).

Definition set_phone_e164 (v : option string) (p : UserProfile)
  : UserProfile :=
  mkUserProfile (email p) (email_verified_at p) v (phone_verified_at p)
    (verify_email_code_hash p) (verify_phone_code_hash p) (verify_expires_at
    p) (verify_requested_at p) (first_name p) (last_name p) (display_name p)
    (avatar_url p) (bio p) (timezone p) (locale p) (marketing_opt_in p)
    (notify_prefs p) (updated_at p).

Definition set_phone_verified_at (v : option datetime) (p : UserProfile)
  : UserProfile :=
  mkUserProfile (email p) (email_verified_at p) (phone_e164 p) v
    (verify_email_code_hash p) (verify_phone_code_hash p) (verify_expires_at
    p) (verify_requested_at p) (first_name p) (last_name p) (display_name p)
    (avatar_url p) (bio p) (timezone p) (locale p) (marketing_opt_in p)
    (notify_prefs p) (updated_at p).

Definition set_verify_email_code_hash (v : option string) (p : UserProfile)
  : UserProfile :=
  mkUserProfile (email p) (email_verified_at p) (phone_e164 p)
    (phone_verified_at p) v (verify_phone_code_hash p) (verify_expires_at p)
    (verify_requested_at p) (first_name p) (last_name p) (display_name p)
    (avatar_url p) (bio p) (timezone p) (locale p) (marketing_opt_in p)
    (notify_prefs p) (updated_at p).

Definition set_verify_phone_code_hash (v : option string) (p : UserProfile)
  : UserProfile :=
  mkUserProfile (email p) (email_verified_at p) (phone_e164 p)
    (phone_verified_at p) (verify_email_code_hash p) v (verify_expires_at p)
    (verify_requested_at p) (first_name p) (last_name p) (display_name p)
    (avatar_url p) (bio p) (timezone p) (locale p) (marketing_opt_in p)
    (notify_prefs p) (updated_at p).

Definition set_verify_expires_at (v : option datetime) (p : UserProfile)
  : UserProfile :=
  mkUserProfile (email p) (email_verified_at p) (phone_e164 p)
    (phone_verified_at p) (verify_email_code_hash p) (verify_phone_code_hash
    p) v (verify_requested_at p) (first_name p) (last_name p) (display_name
    p) (avatar_url p) (bio p) (timezone p) (locale p) (marketing_opt_in p)
    (notify_prefs p) (updated_at p).

Definition set_verify_requested_at (v : option datetime) (p : UserProfile)
  : UserProfile :=
  mkUserProfile (email p) (email_verified_at p) (phone_e164 p)
    (phone_verified_at p) (verify_email_code_hash p) (verify_phone_code_hash
    p) (verify_expires_at p) v (first_name p) (last_name p) (display_name p)
    (avatar_url p) (bio p) (timezone p) (locale p) (marketing_opt_in p)
    (notify_prefs p) (updated_at p).

Definition set_first_name (v : option string) (p : UserProfile)
  : UserProfile :=
  mkUserProfile (email p) (email_verified_at p) (phone_e164 p)
    (phone_verified_at p) (verify_email_code_hash p) (verify_phone_code_hash
    p) (verify_expires_at p) (verify_requested_at p) v (last_name p)
    (display_name p) (avatar_url p) (bio p) (timezone p) (locale p)
    (marketing_opt_in p) (notify_prefs p) (updated_at p).

Definition set_last_name (v : option string) (p : UserProfile)
  : UserProfile :=
  mkUserProfile (email p) (email_verified_at p) (phone_e164 p)
    (phone_verified_at p) (verify_email_code_hash p) (verify_phone_code_hash
    p) (verify_expires_at p) (verify_requested_at p) (first_name p) v
    (display_name p) (avatar_url p) (bio p) (timezone p) (locale p)
    (marketing_opt_in p) (notify_prefs p) (updated_at p).

Definition set_display_name (v : option string) (p : UserProfile)
  : UserProfile :=
  mkUserProfile (email p) (email_verified_at p) (phone_e164 p)
    (phone_verified_at p) (verify_email_code_hash p) (verify_phone_code_hash
    p) (verify_expires_at p) (verify_requested_at p) (first_name p)
    (last_name p) v (avatar_url p) (bio p) (timezone p) (locale p)
    (marketing_opt_in p) (notify_prefs p) (updated_at p).

Definition set_avatar_url (v : option string) (p : UserProfile)
  : UserProfile :=
  mkUserProfile (email p) (email_verified_at p) (phone_e164 p)
    (phone_verified_at p) (verify_email_code_hash p) (verify_phone_code_hash
    p) (verify_expires_at p) (verify_requested_at p) (first_name p)
    (last_name p) (display_name p) v (bio p) (timezone p) (locale p)
    (marketing_opt_in p) (notify_prefs p) (updated_at p).

Definition set_bio (v : option string) (p : UserProfile)
  : UserProfile :=
  mkUserProfile (email p) (email_verified_at p) (phone_e164 p)
    (phone_verified_at p) (verify_email_code_hash p) (verify_phone_code_hash
    p) (verify_expires_at p) (verify_requested_at p) (first_name p)
    (last_name p) (display_name p) (avatar_url p) v (timezone p) (locale p)
    (marketing_opt_in p) (notify_prefs p) (updated_at p).

Definition set_timezone (v : option string) (p : UserProfile)
  : UserProfile :=
  mkUserProfile (email p) (email_verified_at p) (phone_e164 p)
    (phone_verified_at p) (verify_email_code_hash p) (verify_phone_code_hash
    p) (verify_expires_at p) (verify_requested_at p) (first_name p)
    (last_name p) (display_name p) (avatar_url p) (bio p) v (locale p)
    (marketing_opt_in p) (notify_prefs p) (updated_at p).

Definition set_locale (v : option string) (p : UserProfile)
  : UserProfile :=
  mkUserProfile (email p) (email_verified_at p) (phone_e164 p)
    (phone_verified_at p) (verify_email_code_hash p) (verify_phone_code_hash
    p) (verify_expires_at p) (verify_requested_at p) (first_name p)
    (last_name p) (display_name p) (avatar_url p) (bio p) (timezone p) v
    (marketing_opt_in p) (notify_prefs p) (updated_at p).

Definition set_marketing_opt_in (v : option bool) (p : UserProfile)
  : UserProfile :=
  mkUserProfile (email p) (email_verified_at p) (phone_e164 p)
    (phone_verified_at p) (verify_email_code_hash p) (verify_phone_code_hash
    p) (verify_expires_at p) (verify_requested_at p) (first_name p)
    (last_name p) (display_name p) (avatar_url p) (bio p) (timezone p)
    (locale p) v (notify_prefs p) (updated_at p).

Definition set_notify_prefs (v : option (gmap string JsonValue))
    (p : UserProfile) : UserProfile :=
  mkUserProfile (email p) (email_verified_at p) (phone_e164 p)
    (phone_verified_at p) (verify_email_code_hash p) (verify_phone_code_hash
    p) (verify_expires_at p) (verify_requested_at p) (first_name p)
    (last_name p) (display_name p) (avatar_url p) (bio p) (timezone p)
    (locale p) (marketing_opt_in p) v (updated_at p).

Record Notification := mkNotification {
  n_id : string;
  n_user_id : Z;
  n_type : string;
  n_data : option (gmap string JsonValue);
  n_created_at : datetime;
  n_read_at : option datetime;
}.

(** ** Schemas *)

Record UpdateProfilePayload := mkUpdateProfilePayload {
  p_email : option string;
  p_phoneE164 : option string;
  p_firstName : option string;
  p_lastName : option string;
  p_displayName : option string;
  p_avatarUrl : option string;
  p_bio : option string;
  p_timezone : option string;
  p_locale : option string;
  p_marketingOptIn : option bool;
  p_notifyPrefs : option (gmap string JsonValue);
}.

Record UserProfileOut := mkUserProfileOut {
  o_username : string;
  o_role : string;
  o_email : option string;
  o_emailVerifiedAt : option datetime;
  o_phoneE164 : option string;
  o_phoneVerifiedAt : option datetime;
  o_firstName : option string;
  o_lastName : option string;
  o_displayName : option string;
  o_avatarUrl : option string;
  o_bio : option string;
  o_timezone : option string;
  o_locale : option string;
  o_marketingOptIn : bool;
  o_notifyPrefs : gmap string JsonValue;
  o_updatedAt : option datetime;
}.

Record NotificationOut := mkNotificationOut {
  no_id : string;
  no_type : string;
  no_data : gmap string JsonValue;
  no_createdAt : datetime;
  no_readAt : option datetime;
}.

(** ** The database and a unit of work *)

Record DB := mkDB {
  accounts : gmap string AccountRow;
  profiles : gmap Z UserProfile;
  notifications : list Notification;
}.

(** The database with the row [p] written as the profile of user [i]. *)
Definition stored (db : DB) (i : Z) (p : UserProfile) : DB :=
  mkDB (accounts db) (<[i := p]> (profiles db)) (notifications db).

Inductive exn :=
| ValueError (msg : string)
| RuntimeError (msg : string)
| HTTPException (status_code : Z) (detail : string).

Record AsyncSession := mkSession {
  committed : DB;
  working : DB;
}.

Definition Tx (A : Type) : Type := AsyncSession → (exn + A) * AsyncSession.

Definition raise {A} (e : exn) : Tx A := λ s, (inl e, s).

#[export] Instance Tx_ret : MRet Tx := λ A a s, (inr a, s).

#[export] Instance Tx_bind : MBind Tx := λ A B k m s,
  match m s with
  | (inl e, s') => (inl e, s')
  | (inr a, s') => k a s'
  end.

(** [async with session_factory() as session: body]: the body starts from
    the committed database; what it has not committed when it leaves, by
    [return] or by an exception, is rolled back. *)
Definition with_session {A} (body : Tx A) (db : DB) : (exn + A) * DB :=
  let '(r, s) := body (mkSession db db) in (r, committed s).

(** [session.scalar(select(UserAccount).where(UserAccount.username == u))] *)
Definition scalar_account (u : string) : Tx (option UserAccount) :=
  λ s, (inr ((λ r, mkUserAccount (row_id r) u (row_role r))
               <$> accounts (working s) !! u), s).

(** [session.scalar(select(UserProfile).where(UserProfile.user_id == i))] *)
Definition scalar_profile (i : Z) : Tx (option UserProfile) :=
  λ s, (inr (profiles (working s) !! i), s).

(** Writes the attributes of the tracked profile of user [i] to the
    working copy ([session.add] followed by [session.flush], or the flush
    of a dirty row). *)
Definition flush (i : Z) (p : UserProfile) : Tx unit :=
  λ s, (inr (), mkSession (committed s) (stored (working s) i p)).

Definition publish : Tx unit :=
  λ s, (inr (), mkSession (working s) (working s)).

(** [session.commit()] of a unit of work whose one dirty row is the
    profile [p] of user [i]. *)
Definition commit (i : Z) (p : UserProfile) : Tx unit := flush i p;; publish.

(** [session.refresh(profile)] *)
Definition refresh (i : Z) (p : UserProfile) : Tx UserProfile :=
  λ s, (inr (default p (profiles (working s) !! i)), s).

(** ** [ProfileStore] *)

Section ProfileStore.

(** The password hashing utility of [app/security.py], which the store
    imports: [hash_password plain], whose randomness (a salt) is an
    argument here, and [verify_password plain hashed]. *)
Context {Salt : Type}.
Variable hash_password : Salt → string → string.
Variable verify_password : string → string → bool.

(** The column defaults of [UserProfile] in [app/models.py]. *)
Variable column_defaults : UserProfile.

(** [UserProfile(user_id=i)] *)
Definition new_UserProfile (i : Z) : UserProfile := column_defaults.

Definition _get_or_create_profile (i : Z) : Tx UserProfile :=
  profile ← scalar_profile i;
  match profile with
  | Some profile => mret profile
  | None =>
      let profile := new_UserProfile i in
      flush i profile;;
      mret profile
  end.

Definition _to_out (account : UserAccount) (profile : UserProfile)
  : UserProfileOut :=
  {| o_username := username account;
     o_role := role account;
     o_email := email profile;
     o_emailVerifiedAt := email_verified_at profile;
     o_phoneE164 := phone_e164 profile;
     o_phoneVerifiedAt := phone_verified_at profile;
     o_firstName := first_name profile;
     o_lastName := last_name profile;
     o_displayName := display_name profile;
     o_avatarUrl := avatar_url profile;
     o_bio := bio profile;
     o_timezone := timezone profile;
     o_locale := locale profile;
     o_marketingOptIn := default false (marketing_opt_in profile);
     o_notifyPrefs := default ∅ (notify_prefs profile);
     o_updatedAt := updated_at profile |}.

(** [f"{random.randint(0, 999999):06d}"], the drawn number being an
    argument. *)
Definition _generate_code (randint : Z) : string := Py.format_0d 6 randint.

Definition get_profile (u : string) : DB → (exn + UserProfileOut) * DB :=
  with_session (
    account ← scalar_account u;
    match account with
    | None => raise (ValueError "Account not found")
    | Some account =>
        profile ← _get_or_create_profile (id account);
        mret (_to_out account profile)
    end).

(** [if v is not None: profile.f = v] *)
Definition assign_if_present {A}
    (set : option A → UserProfile → UserProfile)
    (v : option A) (profile : UserProfile) : UserProfile :=
  match v with
  | Some x => set (Some x) profile
  | None => profile
  end.

(** The attribute assignments of [update_profile], lines 50 to 81 of the
    source, on the tracked profile. *)
Definition update_profile_assignments (payload : UpdateProfilePayload)
    (profile : UserProfile) : UserProfile :=
  (* Changing email/phone resets verification *)
  let profile :=
    match p_email payload with
    | Some e =>
        if bool_decide (Some e ≠ email profile) then
          let profile :=
            set_email (Py.or_None (Py.strip (Py.lower e))) profile in
          let profile := set_email_verified_at None profile in
          let profile := set_verify_email_code_hash None profile in
          let profile := set_verify_expires_at None profile in
          set_verify_requested_at None profile
        else profile
    | None => profile
    end in
  let profile :=
    match p_phoneE164 payload with
    | Some ph =>
        if bool_decide (Some ph ≠ phone_e164 profile) then
          let profile :=
            set_phone_e164 (Py.or_None (Py.strip ph)) profile in
          let profile := set_phone_verified_at None profile in
          let profile := set_verify_phone_code_hash None profile in
          let profile := set_verify_expires_at None profile in
          set_verify_requested_at None profile
        else profile
    | None => profile
    end in
  let profile :=
    assign_if_present set_first_name (p_firstName payload) profile in
  let profile :=
    assign_if_present set_last_name (p_lastName payload) profile in
  let profile :=
    assign_if_present set_display_name (p_displayName payload) profile in
  let profile :=
    assign_if_present set_avatar_url (p_avatarUrl payload) profile in
  let profile := assign_if_present set_bio (p_bio payload) profile in
  let profile :=
    assign_if_present set_timezone (p_timezone payload) profile in
  let profile := assign_if_present set_locale (p_locale payload) profile in
  let profile :=
    assign_if_present set_marketing_opt_in (p_marketingOptIn payload)
      profile in
  let profile :=
    assign_if_present set_notify_prefs (p_notifyPrefs payload) profile in
  profile.

Definition update_profile (u : string) (payload : UpdateProfilePayload)
  : DB → (exn + UserProfileOut) * DB :=
  with_session (
    account ← scalar_account u;
    match account with
    | None => raise (ValueError "Account not found")
    | Some account =>
        profile ← _get_or_create_profile (id account);
        let profile := update_profile_assignments payload profile in
        commit (id account) profile;;
        profile ← refresh (id account) profile;
        mret (_to_out account profile)
    end).

(** [profile.verify_requested_at and
     (now - profile.verify_requested_at).total_seconds()
       < REQUEST_COOLDOWN_SECONDS] *)
Definition rate_limited (now : datetime) (profile : UserProfile) : bool :=
  match verify_requested_at profile with
  | Some requested =>
      now - requested <? timedelta_seconds REQUEST_COOLDOWN_SECONDS
  | None => false
  end.

Definition request_email_code (now : datetime) (randint : Z) (salt : Salt)
    (u : string) (e : string) : DB → (exn + unit) * DB :=
  with_session (
    account ← scalar_account u;
    match account with
    | None => raise (ValueError "Account not found")
    | Some account =>
        profile ← _get_or_create_profile (id account);
        (* rate limit *)
        if rate_limited now profile then
          raise (RuntimeError "Please wait before requesting another code")
        else
          let profile := set_email (Some (Py.strip (Py.lower e))) profile in
          let code := _generate_code randint in
          let profile :=
            set_verify_email_code_hash (Some (hash_password salt code))
              profile in
          let profile := set_verify_phone_code_hash None profile in
          let profile :=
            set_verify_expires_at
              (Some (now + timedelta_minutes CODE_TTL_MINUTES)) profile in
          let profile := set_verify_requested_at (Some now) profile in
          commit (id account) profile
    end).

(** [not profile.verify_X_code_hash or not profile.verify_expires_at
     or profile.verify_expires_at < now], for the hash of one channel. *)
Definition no_usable_code (now : datetime) (code_hash : option string)
    (profile : UserProfile) : bool :=
  negb (Py.truthy_opt code_hash)
  || match verify_expires_at profile with
     | None => true
     | Some expires => expires <? now
     end.

Definition verify_email (now : datetime) (u : string) (code : string)
  : DB → (exn + bool) * DB :=
  with_session (
    account ← scalar_account u;
    match account with
    | None => raise (ValueError "Account not found")
    | Some account =>
        profile ← _get_or_create_profile (id account);
        if no_usable_code now (verify_email_code_hash profile) profile then
          mret false
        else if negb (verify_password code
                        (default "" (verify_email_code_hash profile))) then
          mret false
        else
          let profile := set_email_verified_at (Some now) profile in
          let profile := set_verify_email_code_hash None profile in
          let profile := set_verify_expires_at None profile in
          let profile := set_verify_requested_at None profile in
          commit (id account) profile;;
          mret true
    end).

Definition request_phone_code (now : datetime) (randint : Z) (salt : Salt)
    (u : string) (ph : string) : DB → (exn + unit) * DB :=
  with_session (
    account ← scalar_account u;
    match account with
    | None => raise (ValueError "Account not found")
    | Some account =>
        profile ← _get_or_create_profile (id account);
        if rate_limited now profile then
          raise (RuntimeError "Please wait before requesting another code")
        else
          let profile := set_phone_e164 (Some (Py.strip ph)) profile in
          let code := _generate_code randint in
          let profile :=
            set_verify_phone_code_hash (Some (hash_password salt code))
              profile in
          let profile := set_verify_email_code_hash None profile in
          let profile :=
            set_verify_expires_at
              (Some (now + timedelta_minutes CODE_TTL_MINUTES)) profile in
          let profile := set_verify_requested_at (Some now) profile in
          commit (id account) profile
    end).

Definition verify_phone (now : datetime) (u : string) (code : string)
  : DB → (exn + bool) * DB :=
  with_session (
    account ← scalar_account u;
    match account with
    | None => raise (ValueError "Account not found")
    | Some account =>
        profile ← _get_or_create_profile (id account);
        if no_usable_code now (verify_phone_code_hash profile) profile then
          mret false
        else if negb (verify_password code
                        (default "" (verify_phone_code_hash profile))) then
          mret false
        else
          let profile := set_phone_verified_at (Some now) profile in
          let profile := set_verify_phone_code_hash None profile in
          let profile := set_verify_expires_at None profile in
          let profile := set_verify_requested_at None profile in
          commit (id account) profile;;
          mret true
    end).

(** *** The two channels, addressed uniformly *)

Inductive Channel := Email | Phone.

Definition other (ch : Channel) : Channel :=
  match ch with Email => Phone | Phone => Email end.

Definition value (ch : Channel) : UserProfile → option string :=
  match ch with Email => email | Phone => phone_e164 end.

Definition verified_at (ch : Channel) : UserProfile → option datetime :=
  match ch with Email => email_verified_at | Phone => phone_verified_at end.

Definition code_hash (ch : Channel) : UserProfile → option string :=
  match ch with
  | Email => verify_email_code_hash
  | Phone => verify_phone_code_hash
  end.

(** The value a channel stores for an input: [v.lower().strip()] for an
    email, [v.strip()] for a phone number. *)
Definition normalise (ch : Channel) (v : string) : string :=
  match ch with Email => Py.strip (Py.lower v) | Phone => Py.strip v end.

Definition p_value (ch : Channel) : UpdateProfilePayload → option string :=
  match ch with Email => p_email | Phone => p_phoneE164 end.

Definition requestCode (ch : Channel) :=
  match ch with Email => request_email_code | Phone => request_phone_code end.

Definition verifyCode (ch : Channel) :=
  match ch with Email => verify_email | Phone => verify_phone end.

(** The profile a unit of work sees for user [i]: the stored row, or a
    new row with the column defaults. *)
Definition seen_profile (db : DB) (i : Z) : UserProfile :=
  default (new_UserProfile i) (profiles db !! i).

End ProfileStore.

(** The exception of the rate limit. *)
Definition rate_limit_error : exn :=
  RuntimeError "Please wait before requesting another code".

(** The exception for a username without account. *)
Definition account_not_found : exn := ValueError "Account not found".

(** The cooldown and the lifetime of a code as time differences. *)
Definition cooldown : timedelta := timedelta_seconds REQUEST_COOLDOWN_SECONDS.
Definition code_ttl : timedelta := timedelta_minutes CODE_TTL_MINUTES.

(** ** The notification feed *)

(** The session of [app/services/sessions.py] that [require_session]
    resolves for the caller. *)
Record Session := mkSessionInfo {
  token : string;
  s_username : string;
  s_role : string;
}.

Record NotificationList := mkNotificationList {
  l_notifications : list NotificationOut;
}.

Definition _get_user (session : Session) : Tx UserAccount :=
  user ← scalar_account (s_username session);
  match user with
  | None => raise (HTTPException 404 "Account not found")
  | Some user => mret user
  end.

(** [Notification.created_at.desc()]: [a] may come before [b]. *)
Definition created_at_desc (a b : Notification) : Prop :=
  n_created_at b ≤ n_created_at a.

#[export] Instance created_at_desc_dec : RelDecision created_at_desc :=
  λ a b, decide (n_created_at b ≤ n_created_at a).

(** [select(Notification).where(Notification.user_id == i)] *)
Definition where_user_id (i : Z) (rows : list Notification)
  : list Notification :=
  filter (λ n, n_user_id n = i) rows.

(** [.order_by(Notification.created_at.desc())]. The query has no second
    key: it leaves the order of rows of equal [created_at] open. The sort
    here keeps such rows in storage order; the statements on a listing
    either hold for every order of the ties or assume creation times that
    are pairwise distinct, where the order is unique. *)
Definition order_by_created_at_desc (rows : list Notification)
  : list Notification :=
  merge_sort created_at_desc rows.

(** The rows of user [i], newest first. *)
Definition feed (db : DB) (i : Z) : list Notification :=
  order_by_created_at_desc (where_user_id i (notifications db)).

(** [db.execute(select(Notification).where(Notification.user_id == i)
      .order_by(Notification.created_at.desc()).limit(50))] followed by
    [result.scalars().all()]. *)
Definition select_notifications (i : Z) : Tx (list Notification) :=
  λ s, (inr (take 50 (feed (working s) i)), s).

(** One element of the comprehension; [n.data or {}] is the stored map, or
    the empty map for a null (or empty) payload. *)
Definition to_NotificationOut (n : Notification) : NotificationOut :=
  {| no_id := n_id n;
     no_type := n_type n;
     no_data := default ∅ (n_data n);
     no_createdAt := n_created_at n;
     no_readAt := n_read_at n |}.

Definition list_notifications (session : Session)
  : DB → (exn + NotificationList) * DB :=
  with_session (
    user ← _get_user session;
    result ← select_notifications (id user);
    let items := to_NotificationOut <$> result in
    mret (mkNotificationList items)).

(** [Response(status_code=c)] *)
Record Response := mkResponse {
  status_code : Z;
}.

Definition HTTP_204_NO_CONTENT : Z := 204.
Definition HTTP_404_NOT_FOUND : Z := 404.

(** [db.scalar(select(Notification).where(Notification.id == nid,
      Notification.user_id == i))]: the first row of the result, if any. *)
Definition scalar_notification (nid : string) (i : Z)
  : Tx (option Notification) :=
  λ s, (inr (head (filter (λ n, n_id n = nid ∧ n_user_id n = i)
                     (notifications (working s)))), s).

Definition set_n_read_at (v : option datetime) (n : Notification)
  : Notification :=
  mkNotification (n_id n) (n_user_id n) (n_type n) (n_data n)
    (n_created_at n) v.

(** The table after [UPDATE notification SET read_at = v WHERE id = nid],
    what the unit of work emits for a row whose [read_at] was assigned;
    [id] is the primary key. *)
Definition update_read_at (nid : string) (v : option datetime)
    (rows : list Notification) : list Notification :=
  (λ n, if decide (n_id n = nid) then set_n_read_at v n else n) <$> rows.

(** [notif.read_at = v] followed by [db.commit()]. *)
Definition commit_read_at (notif : Notification) (v : option datetime)
  : Tx unit :=
  λ s, let w := working s in
       let w' := mkDB (accounts w) (profiles w)
                   (update_read_at (n_id notif) v (notifications w)) in
       (inr (), mkSession w' w').

(** [datetime.utcnow()] is the argument [now]. *)
Definition mark_notification_read (now : datetime) (notification_id : string)
    (session : Session) : DB → (exn + Response) * DB :=
  with_session (
    user ← _get_user session;
    notif ← scalar_notification notification_id (id user);
    match notif with
    | None => raise (HTTPException HTTP_404_NOT_FOUND "Notification not found")
    | Some notif =>
        commit_read_at notif (Some now);;
        mret (mkResponse HTTP_204_NO_CONTENT)
    end).

(** ** [routers/auth.py] *)

(** The record [UserStore] returns for an account. *)
Record UserRecord := mkUserRecord {
  rec_username : string;
  rec_role : string;
}.

Record SignupPayload := mkSignupPayload {
  sp_username : string;
  sp_password : string;
}.

Record LoginPayload := mkLoginPayload {
  lp_username : string;
  lp_password : string;
  lp_role : string;
}.

Record SignupResponse := mkSignupResponse {
  sr_username : string;
  sr_message : string;
}.

Record LoginResponse := mkLoginResponse {
  lr_token : string;
  lr_role : string;
  lr_username : string;
  lr_message : string;
}.

(** What a handler does to the cookies of the injected [response], in
    order: [response.set_cookie(key, value, httponly=h, samesite=s,
    max_age=m)] and [response.delete_cookie(key)]. *)
Inductive CookieOp :=
| set_cookie (key value : string) (httponly : bool) (samesite : string)
    (max_age : Z)
| delete_cookie (key : string).

Definition HTTP_400_BAD_REQUEST : Z := 400.

(** A computation on the state [W] of the services a handler depends on. *)
Definition Eff (W A : Type) : Type := W → (exn + A) * W.

Definition Eff_raise {W A} (e : exn) : Eff W A := λ w, (inl e, w).

Section Auth.

(** The services of [app/services] and the constant of [app/config.py]
    that the handlers use: the user store, the session manager and the
    event store, as computations on their joint state [W]. *)
Variable W : Type.
Variable SESSION_TTL_MINUTES : Z.
Variable create_member : string → string → Eff W UserRecord.
Variable verify_credentials : string → string → string → Eff W UserRecord.
Variable session_record_signup : string → string → Eff W unit.
Variable session_create : string → string → Eff W Session.
Variable session_invalidate : string → Eff W unit.
Variable event_record_signup : string → string → Eff W unit.

#[local] Instance Eff_ret : MRet (Eff W) := λ A a w, (inr a, w).

#[local] Instance Eff_bind : MBind (Eff W) := λ A B k m w,
  match m w with
  | (inl e, w') => (inl e, w')
  | (inr a, w') => k a w'
  end.

Definition signup (payload : SignupPayload) : Eff W SignupResponse :=
  let username := Py.strip (sp_username payload) in
  if negb (Py.truthy username) then
    Eff_raise (HTTPException HTTP_400_BAD_REQUEST "Username cannot be empty")
  else
    record ← create_member username (sp_password payload);
    session_record_signup (rec_username record) (rec_role record);;
    event_record_signup (rec_username record) (rec_role record);;
    mret (mkSignupResponse (rec_username record)
            "Account created. You can now sign in.").

(** [login] returns its body together with the cookie operations it has
    added to the injected [response]. *)
Definition login (payload : LoginPayload) (response : list CookieOp)
  : Eff W (LoginResponse * list CookieOp) :=
  let sanitized_username := Py.strip (lp_username payload) in
  if negb (Py.truthy sanitized_username) then
    Eff_raise (HTTPException HTTP_400_BAD_REQUEST "Username cannot be empty")
  else
    record ← verify_credentials sanitized_username (lp_password payload)
                (lp_role payload);
    session ← session_create (rec_username record) (rec_role record);
    let message :=
      if String.eqb (rec_role record) "admin" then "Welcome back, admin!"
      else "You are now online." in
    let max_age := SESSION_TTL_MINUTES * 60 in
    let response :=
      (response ++ [set_cookie "session_token" (token session) true "lax"
                      max_age])%list in
    let response :=
      (response ++ [set_cookie "session_role" (s_role session) false "lax"
                      max_age])%list in
    mret (mkLoginResponse (token session) (s_role session)
            (s_username session) message, response).

(** [logout] for the session that [require_session] resolved; it returns
    a new [Response] together with the cookie operations it has added to
    the injected [response]. *)
Definition logout (response : list CookieOp) (session : Session)
  : Eff W (Response * list CookieOp) :=
  session_invalidate (token session);;
  let response := (response ++ [delete_cookie "session_token"])%list in
  let response := (response ++ [delete_cookie "session_role"])%list in
  mret (mkResponse HTTP_204_NO_CONTENT, response).

End Auth.

(** The exception for a username that is empty once trimmed. *)
Definition empty_username : exn :=
  HTTPException 400 "Username cannot be empty".

(** The names of the cookies a list of operations sets, and deletes. *)
Definition cookies_set (ops : list CookieOp) : list string :=
  omap (λ op, match op with
              | set_cookie k _ _ _ _ => Some k
              | delete_cookie _ => None
              end) ops.

Definition cookies_deleted (ops : list CookieOp) : list string :=
  omap (λ op, match op with
              | set_cookie _ _ _ _ _ => None
              | delete_cookie k => Some k
              end) ops.

(** ** Predicates of the statements *)

(** At most one of the two channels has a pending code hash. *)
Definition one_pending (p : UserProfile) : Prop :=
  verify_email_code_hash p = None ∨ verify_phone_code_hash p = None.

(** The primary key of [Notification]: no two rows share an [id]. *)
Definition primary_key (rows : list Notification) : Prop :=
  NoDup (n_id <$> rows).

(** ** A concrete instance *)

(** An instance of the parameters and a few databases, on which the methods
    are run. The hashing utility of the instance only tags the plain text:
    it stands for the interface, not for a secure hash. *)
Module Ex.

Definition hash (salt : unit) (plain : string) : string :=
  String.append "h:" plain.

Definition verify (plain hashed : string) : bool :=
  String.eqb (hash () plain) hashed.

Definition blank : UserProfile :=
  mkUserProfile None None None None None None None None None None None
    None None None None None None None.

Definition alice : AccountRow := mkAccountRow 1 "member".

(** One account, no profile yet. *)
Definition db0 : DB := mkDB {[ "alice" := alice ]} ∅ [].

(** The profile of alice one millisecond after the epoch, once an email
    code was requested with the draw 42. *)
Definition pending : UserProfile :=
  set_verify_requested_at (Some 1000)
    (set_verify_expires_at (Some 900001000)
       (set_verify_email_code_hash (Some "h:000042")
          (set_email (Some "a@x.com") blank))).

Definition db_pending : DB := stored db0 1 pending.

(** A profile whose two channels are verified and have no code. *)
Definition verified : UserProfile :=
  set_phone_verified_at (Some 600)
    (set_phone_e164 (Some "+15550100")
       (set_email_verified_at (Some 500)
          (set_email (Some "a@x.com") blank))).

Definition db_verified : DB := stored db0 1 verified.

(** A partial update that changes the email only. *)
Definition new_email : UpdateProfilePayload :=
  mkUpdateProfilePayload (Some "  Alice@Example.org ") None None None None
    None None None None None None.

(** A partial update of the display name only. *)
Definition new_name : UpdateProfilePayload :=
  mkUpdateProfilePayload None None None None (Some "Alice") None None None
    None None None.

(** Notification [k] of user [i], created at time [k], without payload. *)
Definition note (i : Z) (k : nat) : Notification :=
  mkNotification (Py.format_0d 3 (Z.of_nat k)) i "info" None (Z.of_nat k)
    None.

(** 60 notifications of alice, oldest first, and 3 of another user. *)
Definition db_feed : DB :=
  mkDB {[ "alice" := alice ]} ∅
    ((note 1 <$> seq 0 60) ++ (note 2 <$> seq 100 3)).

Definition session : Session := mkSessionInfo "t0k3n" "alice" "member".

(** Partial updates of one channel: the stored email as it is stored, the
    stored email in another writing, a new phone number, a blank email. *)
Definition same_email : UpdateProfilePayload :=
  mkUpdateProfilePayload (Some "a@x.com") None None None None None None None
    None None None.

Definition reformatted_email : UpdateProfilePayload :=
  mkUpdateProfilePayload (Some " A@X.com") None None None None None None
    None None None None.

Definition new_phone : UpdateProfilePayload :=
  mkUpdateProfilePayload None (Some "+15550199") None None None None None
    None None None None.

Definition blank_email : UpdateProfilePayload :=
  mkUpdateProfilePayload (Some "   ") None None None None None None None
    None None None.

(** Three notifications of alice and two of another user. *)
Definition db_notes : DB :=
  mkDB {[ "alice" := alice ]} ∅
    ((note 1 <$> seq 0 3) ++ (note 2 <$> seq 100 2)).

(** Services for the handlers, on the list of the live tokens: every
    password but ['pw1'] is refused. *)
Definition create_member (u pw : string) : Eff (list string) UserRecord :=
  λ w, (inr (mkUserRecord u "member"), w).

Definition verify_credentials (u pw r : string)
  : Eff (list string) UserRecord :=
  λ w, if String.eqb pw "pw1" then (inr (mkUserRecord u r), w)
       else (inl (HTTPException 401 "Invalid credentials"), w).

Definition record_signup (u r : string) : Eff (list string) unit :=
  λ w, (inr (), w).

Definition session_create (u r : string) : Eff (list string) Session :=
  λ w, (inr (mkSessionInfo (String.append "tok-" u) u r),
        String.append "tok-" u :: w).

Definition session_invalidate (t : string) : Eff (list string) unit :=
  λ w, (inr (), filter (λ x, x ≠ t) w).

Definition credentials : LoginPayload := mkLoginPayload " alice " "pw1" "admin".

(** Two notifications of alice created at the same time. *)
Definition tie (nid : string) : Notification :=
  mkNotification nid 1 "info" None 5 None.

Definition db_ties : DB := mkDB {[ "alice" := alice ]} ∅ [tie "a"; tie "b"].

End Ex.

(** * Properties *)

Lemma DB_eta (db : DB) :
  mkDB (accounts db) (profiles db) (notifications db) = db.
Proof. by destruct db. Qed.

Lemma stored_lookup db i p : profiles (stored db i p) !! i = Some p.
Proof. apply lookup_insert_eq. Qed.

Lemma stored_lookup_ne db i j p :
  i ≠ j → profiles (stored db i p) !! j = profiles db !! j.
Proof. intros. by apply lookup_insert_ne. Qed.

Lemma stored_twice db i p q : stored (stored db i p) i q = stored db i q.
Proof. unfold stored; simpl. by rewrite insert_insert_eq. Qed.

Section ProfileStore_facts.

Context {Salt : Type}.
Variable hash_password : Salt → string → string.
Variable verify_password : string → string → bool.
Variable column_defaults : UserProfile.

Abbreviation seen := (seen_profile column_defaults).
Abbreviation requestCode := (requestCode hash_password column_defaults).
Abbreviation verifyCode := (verifyCode verify_password column_defaults).
Abbreviation update_profile := (update_profile column_defaults).

(** Every method opens its unit of work in the same way: it looks the
    account up, then gets or creates its profile. *)
Lemma unit_of_work {A} (u : string) (row : AccountRow) (db : DB)
    (k : UserAccount → UserProfile → Tx A) :
  accounts db !! u = Some row →
  with_session
    (account ← scalar_account u;
     match account with
     | None => raise (ValueError "Account not found")
     | Some account =>
         profile ← _get_or_create_profile column_defaults (id account);
         k account profile
     end) db
  = (let i := row_id row in
     let '(r, s) :=
       k (mkUserAccount i u (row_role row)) (seen db i)
         (mkSession db (stored db i (seen db i))) in
     (r, committed s)).
Proof.
  intros Hacc.
  cbv [with_session mbind Tx_bind mret Tx_ret scalar_account
         _get_or_create_profile scalar_profile flush seen_profile
         working committed].
  rewrite Hacc. cbn [fmap option_fmap option_map id].
  destruct (profiles db !! row_id row) as [p|] eqn:Hp; cbn [default].
  - unfold stored. by rewrite (insert_id _ _ _ Hp), DB_eta.
  - done.
Qed.

Ltac run_tx :=
  cbv [mbind Tx_bind mret Tx_ret raise commit flush publish refresh
         working committed id].

(** *** What each method computes for an existing account *)

Lemma verify_email_run now u code row db :
  accounts db !! u = Some row →
  verify_email verify_password column_defaults now u code db
  = (let i := row_id row in
     let p := seen db i in
     if no_usable_code now (verify_email_code_hash p) p then (inr false, db)
     else if negb (verify_password code
                     (default "" (verify_email_code_hash p)))
     then (inr false, db)
     else (inr true,
           stored db i
             (set_verify_requested_at None
                (set_verify_expires_at None
                   (set_verify_email_code_hash None
                      (set_email_verified_at (Some now) p)))))).
Proof.
  intros Hacc. unfold verify_email. rewrite (unit_of_work _ _ _ _ Hacc).
  cbv zeta. run_tx.
  destruct (no_usable_code _ _ _); [done|].
  destruct (negb _); [done|].
  by rewrite stored_twice.
Qed.

Lemma verify_phone_run now u code row db :
  accounts db !! u = Some row →
  verify_phone verify_password column_defaults now u code db
  = (let i := row_id row in
     let p := seen db i in
     if no_usable_code now (verify_phone_code_hash p) p then (inr false, db)
     else if negb (verify_password code
                     (default "" (verify_phone_code_hash p)))
     then (inr false, db)
     else (inr true,
           stored db i
             (set_verify_requested_at None
                (set_verify_expires_at None
                   (set_verify_phone_code_hash None
                      (set_phone_verified_at (Some now) p)))))).
Proof.
  intros Hacc. unfold verify_phone. rewrite (unit_of_work _ _ _ _ Hacc).
  cbv zeta. run_tx.
  destruct (no_usable_code _ _ _); [done|].
  destruct (negb _); [done|].
  by rewrite stored_twice.
Qed.

Lemma request_email_code_run now randint salt u e row db :
  accounts db !! u = Some row →
  request_email_code hash_password column_defaults now randint salt u e db
  = (let i := row_id row in
     let p := seen db i in
     if rate_limited now p then (inl rate_limit_error, db)
     else (inr (),
           stored db i
             (set_verify_requested_at (Some now)
                (set_verify_expires_at
                   (Some (now + timedelta_minutes CODE_TTL_MINUTES))
                   (set_verify_phone_code_hash None
                      (set_verify_email_code_hash
                         (Some (hash_password salt
                                  (_generate_code randint)))
                         (set_email (Some (Py.strip (Py.lower e))) p))))))).
Proof.
  intros Hacc. unfold request_email_code.
  rewrite (unit_of_work _ _ _ _ Hacc).
  cbv zeta. run_tx.
  destruct (rate_limited _ _); [done|].
  by rewrite stored_twice.
Qed.

Lemma request_phone_code_run now randint salt u ph row db :
  accounts db !! u = Some row →
  request_phone_code hash_password column_defaults now randint salt u ph db
  = (let i := row_id row in
     let p := seen db i in
     if rate_limited now p then (inl rate_limit_error, db)
     else (inr (),
           stored db i
             (set_verify_requested_at (Some now)
                (set_verify_expires_at
                   (Some (now + timedelta_minutes CODE_TTL_MINUTES))
                   (set_verify_email_code_hash None
                      (set_verify_phone_code_hash
                         (Some (hash_password salt
                                  (_generate_code randint)))
                         (set_phone_e164 (Some (Py.strip ph)) p))))))).
Proof.
  intros Hacc. unfold request_phone_code.
  rewrite (unit_of_work _ _ _ _ Hacc).
  cbv zeta. run_tx.
  destruct (rate_limited _ _); [done|].
  by rewrite stored_twice.
Qed.

Lemma update_profile_run u payload row db :
  accounts db !! u = Some row →
  update_profile u payload db
  = (let i := row_id row in
     let p := update_profile_assignments payload (seen db i) in
     (inr (_to_out (mkUserAccount i u (row_role row)) p), stored db i p)).
Proof.
  intros Hacc. unfold update_profile.
  rewrite (unit_of_work _ _ _ _ Hacc).
  cbv zeta. run_tx.
  by rewrite stored_twice, stored_lookup.
Qed.

(** Without the account every method raises and commits nothing. *)
Lemma no_account {A} (u : string) (db : DB)
    (k : UserAccount → Tx A) :
  accounts db !! u = None →
  with_session
    (account ← scalar_account u;
     match account with
     | None => raise (ValueError "Account not found")
     | Some account => k account
     end) db
  = (inl (ValueError "Account not found"), db).
Proof.
  intros Hacc.
  cbv [with_session mbind Tx_bind scalar_account raise working committed].
  by rewrite Hacc.
Qed.

Lemma requestCode_no_account ch now randint salt u v db :
  accounts db !! u = None →
  requestCode ch now randint salt u v db
  = (inl (ValueError "Account not found"), db).
Proof. intros Hacc. destruct ch; by apply no_account. Qed.

Lemma verifyCode_no_account ch now u code db :
  accounts db !! u = None →
  verifyCode ch now u code db = (inl (ValueError "Account not found"), db).
Proof. intros Hacc. destruct ch; by apply no_account. Qed.

Lemma seen_stored db i p : seen (stored db i p) i = p.
Proof. unfold seen_profile. by rewrite stored_lookup. Qed.

Lemma seen_lookup db i p : profiles db !! i = Some p → seen db i = p.
Proof. unfold seen_profile. by intros ->. Qed.

(** The channel-level forms of the run lemmas. *)
Lemma verifyCode_run ch now u code row db :
  accounts db !! u = Some row →
  verifyCode ch now u code db
  = (let i := row_id row in
     let p := seen db i in
     if no_usable_code now (code_hash ch p) p then (inr false, db)
     else if negb (verify_password code (default "" (code_hash ch p)))
     then (inr false, db)
     else (inr true,
           stored db i
             (set_verify_requested_at None
                (set_verify_expires_at None
                   (match ch with
                    | Email =>
                        set_verify_email_code_hash None
                          (set_email_verified_at (Some now) p)
                    | Phone =>
                        set_verify_phone_code_hash None
                          (set_phone_verified_at (Some now) p)
                    end))))).
Proof.
  intros Hacc. destruct ch; simpl.
  - by apply verify_email_run.
  - by apply verify_phone_run.
Qed.

Lemma requestCode_run ch now randint salt u v row db :
  accounts db !! u = Some row →
  requestCode ch now randint salt u v db
  = (let i := row_id row in
     let p := seen db i in
     let h := Some (hash_password salt (_generate_code randint)) in
     if rate_limited now p then (inl rate_limit_error, db)
     else (inr (),
           stored db i
             (set_verify_requested_at (Some now)
                (set_verify_expires_at (Some (now + code_ttl))
                   (match ch with
                    | Email =>
                        set_verify_phone_code_hash None
                          (set_verify_email_code_hash h
                             (set_email (Some (normalise Email v)) p))
                    | Phone =>
                        set_verify_email_code_hash None
                          (set_verify_phone_code_hash h
                             (set_phone_e164 (Some (normalise Phone v)) p))
                    end))))).
Proof.
  intros Hacc. destruct ch; simpl.
  - by apply request_email_code_run.
  - by apply request_phone_code_run.
Qed.

(** *** The verification-code life cycle *)

(** C1 (amended): for a profile with a pending code for a channel, a
    call of [verifyCode] for that channel that returns true is terminal
    for the code: the pending hash of the channel is cleared and every
    later call for the channel returns false and changes nothing, until
    a new code is requested. A call that returns false commits nothing:
    the database, the pending hash included, is as before. *)
Theorem verifyCode_terminal_on_success ch now u code row db p r db' :
  accounts db !! u = Some row →
  profiles db !! row_id row = Some p →
  Py.truthy_opt (code_hash ch p) = true →
  verifyCode ch now u code db = (r, db') →
  (r = inr true
   ∧ (code_hash ch <$> profiles db' !! row_id row) = Some None
   ∧ ∀ now' code', verifyCode ch now' u code' db' = (inr false, db'))
  ∨ (r = inr false ∧ db' = db).
Proof.
  intros Hacc Hp _. rewrite (verifyCode_run _ _ _ _ _ _ Hacc). cbv zeta.
  destruct (no_usable_code _ _ _); [intros [= <- <-]; by right|].
  destruct (negb _); [intros [= <- <-]; by right|].
  intros [= <- <-]. left. split; [done|].
  rewrite stored_lookup. split; [by destruct ch|].
  intros now' code'.
  rewrite (verifyCode_run _ _ _ _ row) by done. cbv zeta.
  rewrite seen_stored. by destruct ch.
Qed.

(** C2: for a profile with a pending, unexpired code for a channel and a
    matching candidate, [verifyCode] returns true, and afterwards the
    verified timestamp of the channel is [now] and the pending hash of
    the channel, the shared expiry and the shared request timestamp are
    cleared. *)
Theorem verifyCode_success ch now u code row db p h e :
  accounts db !! u = Some row →
  profiles db !! row_id row = Some p →
  code_hash ch p = Some h →
  Py.truthy h = true →
  verify_expires_at p = Some e →
  now ≤ e →
  verify_password code h = true →
  ∃ p',
    verifyCode ch now u code db = (inr true, stored db (row_id row) p')
    ∧ verified_at ch p' = Some now
    ∧ code_hash ch p' = None
    ∧ verify_expires_at p' = None
    ∧ verify_requested_at p' = None.
Proof.
  intros Hacc Hp Hh Ht He Hle Hv.
  rewrite (verifyCode_run _ _ _ _ _ _ Hacc). cbv zeta.
  rewrite (seen_lookup _ _ _ Hp).
  unfold no_usable_code. rewrite Hh, He. simpl. rewrite Ht, Hv. simpl.
  replace (e <? now) with false by (symmetry; by apply Z.ltb_ge).
  eexists. split; [reflexivity|]. by destruct ch.
Qed.

(** C6: for an existing account, [verifyCode] returns false, and raises
    nothing, when the channel has no pending hash, when no expiry is set
    and when the expiry has passed; the database is then unchanged. *)
Theorem verifyCode_no_usable_code ch now u code row db :
  accounts db !! u = Some row →
  Py.truthy_opt (code_hash ch (seen db (row_id row))) = false
  ∨ verify_expires_at (seen db (row_id row)) = None
  ∨ (∃ e, verify_expires_at (seen db (row_id row)) = Some e ∧ e < now) →
  verifyCode ch now u code db = (inr false, db).
Proof.
  intros Hacc Hcase.
  rewrite (verifyCode_run _ _ _ _ _ _ Hacc). cbv zeta.
  replace (no_usable_code now (code_hash ch (seen db (row_id row)))
             (seen db (row_id row))) with true; [done|].
  symmetry. unfold no_usable_code.
  destruct Hcase as [->|[->|(e & -> & Hlt)]].
  - done.
  - apply orb_true_r.
  - apply orb_true_iff. right. by apply Z.ltb_lt.
Qed.

(** C3: for an existing account, [requestCode] for either channel fails
    with the rate-limit error when the last-request timestamp of the
    profile lies less than the cooldown before [now], and succeeds when
    the cooldown has elapsed; a successful request for either channel
    sets that timestamp to its [now]. *)
Theorem requestCode_rate_limit ch now randint salt u v row db :
  accounts db !! u = Some row →
  (∀ r, verify_requested_at (seen db (row_id row)) = Some r →
     (now - r < cooldown →
      requestCode ch now randint salt u v db = (inl rate_limit_error, db))
     ∧ (cooldown ≤ now - r →
        ∃ db', requestCode ch now randint salt u v db = (inr (), db')))
  ∧ (∀ db', requestCode ch now randint salt u v db = (inr (), db') →
       verify_requested_at (seen db' (row_id row)) = Some now).
Proof.
  intros Hacc.
  rewrite (requestCode_run _ _ _ _ _ _ _ _ Hacc). cbv zeta.
  split.
  - unfold rate_limited. intros r ->. fold cooldown. split; intros Hr.
    + by replace (now - r <? cooldown) with true
        by (symmetry; by apply Z.ltb_lt).
    + replace (now - r <? cooldown) with false
        by (symmetry; by apply Z.ltb_ge).
      by eexists.
  - intros db'.
    destruct (rate_limited _ _); [done|].
    intros [= <-]. by rewrite seen_stored.
Qed.

(** C4: for an existing account that is not rate-limited, [requestCode]
    succeeds and stores for the channel the hash of the generated code,
    sets the shared expiry to [now] plus 15 minutes and the shared
    last-request timestamp to [now], and clears the pending hash of the
    other channel. The stored state depends on the code through its
    hash only: two draws with the same hash store the same database. *)
Theorem requestCode_stores_hash ch now randint salt u v row db :
  accounts db !! u = Some row →
  rate_limited now (seen db (row_id row)) = false →
  ∃ p',
    requestCode ch now randint salt u v db
      = (inr (), stored db (row_id row) p')
    ∧ code_hash ch p' = Some (hash_password salt (_generate_code randint))
    ∧ verify_expires_at p' = Some (now + 15 * 60 * 1000000)
    ∧ verify_requested_at p' = Some now
    ∧ code_hash (other ch) p' = None
    ∧ ∀ randint2 salt2,
        hash_password salt2 (_generate_code randint2)
          = hash_password salt (_generate_code randint) →
        requestCode ch now randint2 salt2 u v db
          = requestCode ch now randint salt u v db.
Proof.
  intros Hacc Hlim.
  rewrite !(requestCode_run _ _ _ _ _ _ _ _ Hacc). cbv zeta.
  rewrite Hlim. eexists. split; [reflexivity|].
  repeat split; try by destruct ch.
  intros randint2 salt2 Heq.
  rewrite (requestCode_run _ _ _ _ _ _ _ _ Hacc). cbv zeta.
  by rewrite Hlim, Heq.
Qed.

(** C10: for an existing account, when [requestCode] fails with the
    rate-limit error, nothing is committed: the database is unchanged. *)
Theorem requestCode_rate_limited_unchanged
    ch now randint salt u v row db db' :
  accounts db !! u = Some row →
  requestCode ch now randint salt u v db = (inl rate_limit_error, db') →
  db' = db.
Proof.
  intros Hacc.
  rewrite (requestCode_run _ _ _ _ _ _ _ _ Hacc). cbv zeta.
  destruct (rate_limited _ _); [|done].
  by intros [= <-].
Qed.

(** *** Profile updates *)

Lemma assign_frame {A B} (f : UserProfile → B)
    (set : option A → UserProfile → UserProfile) (v : option A) p :
  (∀ x q, f (set x q) = f q) →
  f (assign_if_present set v p) = f p.
Proof. intros Hset. destruct v; simpl; [apply Hset|done]. Qed.

(** [frame f]: the assignments of the display and preference attributes
    do not change the attribute [f]. *)
Ltac frame f := rewrite ?(assign_frame f) by (intros; reflexivity).

(** A changed value of a channel resets the channel. *)
Lemma assignments_reset_channel ch payload p e :
  p_value ch payload = Some e →
  Some e ≠ value ch p →
  let p' := update_profile_assignments payload p in
  verified_at ch p' = None
  ∧ code_hash ch p' = None
  ∧ verify_expires_at p' = None
  ∧ verify_requested_at p' = None
  ∧ value ch p' = Py.or_None (normalise ch e).
Proof.
  intros He Hne. unfold update_profile_assignments. cbv zeta.
  frame verify_expires_at; frame verify_requested_at.
  destruct ch; cbn [p_value value verified_at code_hash normalise] in *.
  - frame email_verified_at; frame verify_email_code_hash; frame email.
    rewrite He, bool_decide_true by done.
    destruct (p_phoneE164 payload); [case_bool_decide|]; done.
  - frame phone_verified_at; frame verify_phone_code_hash;
      frame phone_e164.
    rewrite He.
    destruct (p_email payload) as [e'|];
      [destruct (bool_decide (Some e' ≠ email _))|];
      by rewrite bool_decide_true.
Qed.

(** C5: for an existing account, [update_profile] with an email (or
    phone) value that is present and differs from the stored one clears
    the verified timestamp and the pending hash of that channel and the
    shared expiry and request timestamp, and stores the new value. *)
Theorem update_profile_resets_channel ch u payload row db e :
  accounts db !! u = Some row →
  p_value ch payload = Some e →
  Some e ≠ value ch (seen db (row_id row)) →
  ∃ out p',
    update_profile u payload db = (inr out, stored db (row_id row) p')
    ∧ verified_at ch p' = None
    ∧ code_hash ch p' = None
    ∧ verify_expires_at p' = None
    ∧ verify_requested_at p' = None
    ∧ value ch p' = Py.or_None (normalise ch e).
Proof.
  intros Hacc He Hne.
  rewrite (update_profile_run _ _ _ _ Hacc). cbv zeta.
  do 2 eexists. split; [reflexivity|].
  by apply assignments_reset_channel.
Qed.

(** [untouched payload f]: with the input fields of the hypotheses
    absent, the assignments leave the attribute [f] as it was. *)
Ltac untouched payload f :=
  intros; unfold update_profile_assignments; cbv zeta;
  repeat match goal with
         | H : _ payload = None |- _ => rewrite H; clear H
         end;
  cbn [assign_if_present]; frame f;
  destruct (p_email payload); destruct (p_phoneE164 payload);
  repeat case_bool_decide; reflexivity.

(** C8: for an existing account and every partial update,
    [update_profile] succeeds and leaves every profile attribute whose
    input field is absent as it was; the verification attributes of a
    channel are as they were when the value of the channel is absent,
    the shared expiry and request timestamp when both are. *)
Theorem update_profile_partial u payload row db :
  accounts db !! u = Some row →
  ∃ out p',
    update_profile u payload db = (inr out, stored db (row_id row) p')
    ∧ let p := seen db (row_id row) in
      (p_email payload = None → email p' = email p)
      ∧ (p_phoneE164 payload = None → phone_e164 p' = phone_e164 p)
      ∧ (p_firstName payload = None → first_name p' = first_name p)
      ∧ (p_lastName payload = None → last_name p' = last_name p)
      ∧ (p_displayName payload = None → display_name p' = display_name p)
      ∧ (p_avatarUrl payload = None → avatar_url p' = avatar_url p)
      ∧ (p_bio payload = None → bio p' = bio p)
      ∧ (p_timezone payload = None → timezone p' = timezone p)
      ∧ (p_locale payload = None → locale p' = locale p)
      ∧ (p_marketingOptIn payload = None →
         marketing_opt_in p' = marketing_opt_in p)
      ∧ (p_notifyPrefs payload = None → notify_prefs p' = notify_prefs p)
      ∧ (p_email payload = None →
         email_verified_at p' = email_verified_at p
         ∧ verify_email_code_hash p' = verify_email_code_hash p)
      ∧ (p_phoneE164 payload = None →
         phone_verified_at p' = phone_verified_at p
         ∧ verify_phone_code_hash p' = verify_phone_code_hash p)
      ∧ (p_email payload = None → p_phoneE164 payload = None →
         verify_expires_at p' = verify_expires_at p
         ∧ verify_requested_at p' = verify_requested_at p).
Proof.
  intros Hacc.
  rewrite (update_profile_run _ _ _ _ Hacc). cbv zeta.
  do 2 eexists. split; [reflexivity|].
  generalize (seen db (row_id row)). intros p.
  repeat apply conj.
  - untouched payload email.
  - untouched payload phone_e164.
  - untouched payload first_name.
  - untouched payload last_name.
  - untouched payload display_name.
  - untouched payload avatar_url.
  - untouched payload bio.
  - untouched payload timezone.
  - untouched payload locale.
  - untouched payload marketing_opt_in.
  - untouched payload notify_prefs.
  - intros; split.
    + untouched payload email_verified_at.
    + untouched payload verify_email_code_hash.
  - intros; split.
    + untouched payload phone_verified_at.
    + untouched payload verify_phone_code_hash.
  - intros; split.
    + untouched payload verify_expires_at.
    + untouched payload verify_requested_at.
Qed.

(** C9: for an existing account whose channel is verified, a successful
    [requestCode] with a new value stores the value, lowercased and
    trimmed for an email and trimmed for a phone number, and leaves the
    verified timestamp of the channel as it was; the same change through
    [update_profile] clears that timestamp. *)
Theorem requestCode_keeps_verified ch now randint salt u v row db p t :
  accounts db !! u = Some row →
  profiles db !! row_id row = Some p →
  verified_at ch p = Some t →
  rate_limited now p = false →
  (∃ p',
     requestCode ch now randint salt u v db
       = (inr (), stored db (row_id row) p')
     ∧ value ch p' = Some (normalise ch v)
     ∧ verified_at ch p' = Some t)
  ∧ (∀ payload, p_value ch payload = Some v → Some v ≠ value ch p →
       ∃ out q,
         update_profile u payload db = (inr out, stored db (row_id row) q)
         ∧ verified_at ch q = None).
Proof.
  intros Hacc Hp Ht Hlim. split.
  - rewrite (requestCode_run _ _ _ _ _ _ _ _ Hacc). cbv zeta.
    rewrite (seen_lookup _ _ _ Hp), Hlim.
    eexists. split; [reflexivity|]. by destruct ch.
  - intros payload Hv Hne.
    rewrite (update_profile_run _ _ _ _ Hacc). cbv zeta.
    rewrite (seen_lookup _ _ _ Hp).
    do 2 eexists. split; [reflexivity|].
    by apply (assignments_reset_channel ch payload p v).
Qed.

End ProfileStore_facts.

(** ** The notification feed *)

Section Notifications.

#[local] Instance created_at_desc_trans : Transitive created_at_desc.
Proof. unfold created_at_desc. intros a b c ??. lia. Qed.

#[local] Instance created_at_desc_total : Total created_at_desc.
Proof. unfold created_at_desc. intros a b. lia. Qed.

Lemma list_notifications_run session row db :
  accounts db !! s_username session = Some row →
  list_notifications session db
  = (inr (mkNotificationList
            (to_NotificationOut <$> take 50 (feed db (row_id row)))), db).
Proof.
  intros Hacc.
  cbv [list_notifications with_session _get_user mbind Tx_bind mret Tx_ret
         scalar_account select_notifications working committed].
  by rewrite Hacc.
Qed.

Lemma feed_sorted db i : StronglySorted created_at_desc (feed db i).
Proof. apply StronglySorted_merge_sort; apply _. Qed.

Lemma feed_elem db i n :
  n ∈ feed db i ↔ n ∈ notifications db ∧ n_user_id n = i.
Proof.
  unfold feed, order_by_created_at_desc, where_user_id.
  rewrite merge_sort_Permutation, list_elem_of_filter. tauto.
Qed.

Lemma feed_Permutation db i :
  feed db i ≡ₚ where_user_id i (notifications db).
Proof. apply merge_sort_Permutation. Qed.

(** A list in descending order of pairwise distinct keys is in strictly
    descending order. *)
Lemma desc_NoDup_strict (l : list Notification) :
  StronglySorted created_at_desc l →
  NoDup (n_created_at <$> l) →
  StronglySorted (λ a b, n_created_at b < n_created_at a) l.
Proof.
  induction 1 as [|a l Hl IH Ha]; csimpl; [constructor|].
  rewrite NoDup_cons. intros [Hnotin Hnd].
  constructor; [by apply IH|].
  rewrite Forall_forall in Ha |- *. intros b Hb.
  specialize (Ha b Hb). unfold created_at_desc in Ha.
  assert (n_created_at b ≠ n_created_at a); [|lia].
  intros Heq. apply Hnotin. rewrite <- Heq.
  by apply list_elem_of_fmap_2.
Qed.

(** C7 (amended): for a caller with an account, [list_notifications]
    returns at most 50 items, in descending order of creation time (items
    of equal creation time follow one another; the order is strictly
    descending when the creation times of the notifications of the user
    are pairwise distinct), each with the empty map as payload when the
    stored payload is null. The items are the newest notifications
    of the user: a notification left out is not newer than one
    returned. *)
Theorem list_notifications_page session row db :
  accounts db !! s_username session = Some row →
  ∃ rows items,
    list_notifications session db = (inr (mkNotificationList items), db)
    ∧ (length items ≤ 50)%nat
    ∧ length items
      = (50 `min` length (where_user_id (row_id row) (notifications db)))%nat
    ∧ StronglySorted (λ a b, no_createdAt b ≤ no_createdAt a) items
    ∧ (NoDup (n_created_at
                <$> where_user_id (row_id row) (notifications db)) →
       StronglySorted (λ a b, no_createdAt b < no_createdAt a) items)
    ∧ Forall2 (λ n o, no_id o = n_id n
                      ∧ no_createdAt o = n_created_at n
                      ∧ (n_data n = None → no_data o = ∅)) rows items
    ∧ (∀ n, n ∈ rows →
         n ∈ notifications db ∧ n_user_id n = row_id row)
    ∧ (∀ n m, n ∈ notifications db → n_user_id n = row_id row →
         n ∉ rows → m ∈ rows → n_created_at n ≤ n_created_at m).
Proof.
  intros Hacc. rewrite (list_notifications_run _ _ _ Hacc).
  set (i := row_id row).
  exists (take 50 (feed db i)), (to_NotificationOut <$> take 50 (feed db i)).
  pose proof (feed_sorted db i) as Hsorted.
  rewrite <- (take_drop 50 (feed db i)) in Hsorted.
  apply StronglySorted_app in Hsorted as (Hcross & Htake & _).
  split; [done|].
  rewrite length_fmap, length_take,
    (Permutation_length (feed_Permutation db i)).
  split; [lia|]. split; [done|].
  split; [by apply (StronglySorted_fmap _ created_at_desc)|].
  split.
  { intros Hnd.
    apply (StronglySorted_fmap _
             (λ a b, n_created_at b < n_created_at a)); [done|].
    apply desc_NoDup_strict; [done|].
    rewrite fmap_take.
    assert (NoDup (n_created_at <$> feed db i)) as Hnd'
      by (by rewrite (feed_Permutation db i)).
    eauto using sublist_NoDup, sublist_take. }
  split.
  { apply Forall2_fmap_r, Forall_Forall2_diag, Forall_forall.
    intros n _. repeat split. simpl. by intros ->. }
  split.
  { intros n Hn. apply feed_elem. by apply (subseteq_take 50). }
  intros n m Hn Hi Hout Hm.
  assert (n ∈ feed db i) as Hfeed by by apply feed_elem.
  rewrite <- (take_drop 50 (feed db i)), elem_of_app in Hfeed.
  destruct Hfeed as [?|Hdrop]; [done|].
  by apply (Hcross m n).
Qed.

End Notifications.

(** ** The theorems on the concrete instance *)

(** The request of an email code with the draw 42, one millisecond after
    the epoch, leads from the database without profile to [Ex.db_pending]. *)
Example request_reaches_pending :
  requestCode Ex.hash Ex.blank Email 1000 42 () "alice" " A@X.com " Ex.db0
  = (inr (), Ex.db_pending).
Proof. vm_compute. reflexivity. Qed.

(** C1 as stated fails: a call of [verify_email] with a wrong candidate
    returns false and leaves the pending hash in place, and a later call
    with the code that was issued matches it. *)
Lemma verifyCode_failure_not_terminal :
  ∃ db',
    verifyCode Ex.verify Ex.blank Email 2000 "alice" "000041" Ex.db_pending
      = (inr false, db')
    ∧ (code_hash Email <$> profiles db' !! 1) ≠ Some None
    ∧ fst (verifyCode Ex.verify Ex.blank Email 3000 "alice" "000042" db')
      = inr true.
Proof.
  exists Ex.db_pending. split; [reflexivity|]. split; [|reflexivity].
  vm_compute. discriminate.
Qed.

Lemma verifyCode_terminal_on_success_witness :
  ∃ db',
    verifyCode Ex.verify Ex.blank Email 2000 "alice" "000042" Ex.db_pending
      = (inr true, db')
    ∧ (code_hash Email <$> profiles db' !! 1) = Some None
    ∧ verifyCode Ex.verify Ex.blank Email 3000 "alice" "000042" db'
      = (inr false, db').
Proof.
  destruct (verifyCode_terminal_on_success Ex.verify Ex.blank Email 2000
              "alice" "000042" Ex.alice Ex.db_pending Ex.pending (inr true)
              (snd (verifyCode Ex.verify Ex.blank Email 2000 "alice"
                      "000042" Ex.db_pending))
              eq_refl eq_refl eq_refl eq_refl)
    as [(_ & Hcleared & Hlater)|[[=] _]].
  eexists. split; [reflexivity|]. split; [exact Hcleared|apply Hlater].
Defined.

Lemma verifyCode_success_witness :
  ∃ p',
    verifyCode Ex.verify Ex.blank Email 2000 "alice" "000042" Ex.db_pending
      = (inr true, stored Ex.db_pending 1 p')
    ∧ verified_at Email p' = Some 2000
    ∧ code_hash Email p' = None
    ∧ verify_expires_at p' = None
    ∧ verify_requested_at p' = None.
Proof.
  apply (verifyCode_success Ex.verify Ex.blank Email 2000 "alice" "000042"
           Ex.alice Ex.db_pending Ex.pending "h:000042" 900001000);
    [reflexivity..|lia|reflexivity].
Defined.

Lemma verifyCode_no_usable_code_witness :
  verifyCode Ex.verify Ex.blank Email 900001001 "alice" "000042"
    Ex.db_pending
  = (inr false, Ex.db_pending).
Proof.
  apply (verifyCode_no_usable_code Ex.verify Ex.blank Email 900001001
           "alice" "000042" Ex.alice Ex.db_pending); [reflexivity|].
  right. right. exists 900001000. split; [reflexivity|lia].
Defined.

Lemma requestCode_rate_limit_witness :
  requestCode Ex.hash Ex.blank Phone 59999999 7 () "alice" "+15550100"
    Ex.db_pending
  = (inl rate_limit_error, Ex.db_pending).
Proof.
  apply (proj1 (requestCode_rate_limit Ex.hash Ex.blank Phone 59999999 7 ()
                  "alice" "+15550100" Ex.alice Ex.db_pending eq_refl)
           1000 eq_refl).
  reflexivity.
Defined.

Lemma requestCode_stores_hash_witness :
  ∃ p',
    requestCode Ex.hash Ex.blank Email 1000 42 () "alice" "A@x.com " Ex.db0
      = (inr (), stored Ex.db0 1 p')
    ∧ code_hash Email p' = Some (Ex.hash () (_generate_code 42))
    ∧ verify_expires_at p' = Some (1000 + 15 * 60 * 1000000)
    ∧ verify_requested_at p' = Some 1000
    ∧ code_hash (other Email) p' = None
    ∧ ∀ randint2 salt2,
        Ex.hash salt2 (_generate_code randint2)
          = Ex.hash () (_generate_code 42) →
        requestCode Ex.hash Ex.blank Email 1000 randint2 salt2 "alice"
          "A@x.com " Ex.db0
        = requestCode Ex.hash Ex.blank Email 1000 42 () "alice" "A@x.com "
            Ex.db0.
Proof.
  apply (requestCode_stores_hash Ex.hash Ex.blank Email 1000 42 () "alice"
           "A@x.com " Ex.alice Ex.db0); reflexivity.
Defined.

Lemma requestCode_rate_limited_unchanged_witness :
  snd (requestCode Ex.hash Ex.blank Email 2000 7 () "alice" "b@x.com"
         Ex.db_pending)
  = Ex.db_pending.
Proof.
  apply (requestCode_rate_limited_unchanged Ex.hash Ex.blank Email 2000 7 ()
           "alice" "b@x.com" Ex.alice Ex.db_pending); reflexivity.
Defined.

Lemma update_profile_resets_channel_witness :
  ∃ out p',
    update_profile Ex.blank "alice" Ex.new_email Ex.db_verified
      = (inr out, stored Ex.db_verified 1 p')
    ∧ verified_at Email p' = None
    ∧ code_hash Email p' = None
    ∧ verify_expires_at p' = None
    ∧ verify_requested_at p' = None
    ∧ value Email p' = Some "alice@example.org".
Proof.
  apply (update_profile_resets_channel Ex.blank Email "alice" Ex.new_email
           Ex.alice Ex.db_verified "  Alice@Example.org ");
    [reflexivity..|discriminate].
Defined.

Lemma update_profile_partial_witness :
  ∃ out p',
    update_profile Ex.blank "alice" Ex.new_name Ex.db_verified
      = (inr out, stored Ex.db_verified 1 p')
    ∧ email p' = Some "a@x.com"
    ∧ email_verified_at p' = Some 500
    ∧ phone_e164 p' = Some "+15550100"
    ∧ phone_verified_at p' = Some 600.
Proof.
  destruct (update_profile_partial Ex.blank "alice" Ex.new_name Ex.alice
              Ex.db_verified eq_refl)
    as (out & p' & Hrun & He & Hp & _ & _ & _ & _ & _ & _ & _ & _ & _
        & Hev & Hpv & _).
  exists out, p'. split; [exact Hrun|].
  split; [exact (He eq_refl)|].
  split; [exact (proj1 (Hev eq_refl))|].
  split; [exact (Hp eq_refl)|exact (proj1 (Hpv eq_refl))].
Defined.

Lemma requestCode_keeps_verified_witness :
  ∃ p',
    requestCode Ex.hash Ex.blank Email 1000 42 () "alice" " New@X.com"
      Ex.db_verified
    = (inr (), stored Ex.db_verified 1 p')
    ∧ value Email p' = Some "new@x.com"
    ∧ verified_at Email p' = Some 500.
Proof.
  apply (requestCode_keeps_verified Ex.hash Ex.blank Email 1000 42 () "alice"
           " New@X.com" Ex.alice Ex.db_verified Ex.verified 500);
    reflexivity.
Defined.

(** C7 as stated fails: for two notifications of the caller with the same
    creation time the listing is not in strictly descending order, and no
    order of the two rows is. *)
Lemma list_notifications_ties_not_strict :
  (∃ items,
     list_notifications Ex.session Ex.db_ties
       = (inr (mkNotificationList items), Ex.db_ties)
     ∧ ¬ StronglySorted (λ a b, no_createdAt b < no_createdAt a) items)
  ∧ ∀ rows,
      rows ≡ₚ where_user_id 1 (notifications Ex.db_ties) →
      ¬ StronglySorted (λ a b, no_createdAt b < no_createdAt a)
          (to_NotificationOut <$> rows).
Proof.
  assert (∀ rows,
            rows ≡ₚ [Ex.tie "a"; Ex.tie "b"] →
            ¬ StronglySorted (λ a b, no_createdAt b < no_createdAt a)
                (to_NotificationOut <$> rows)) as Hties.
  { intros rows Hrows. symmetry in Hrows.
    apply Permutation_length_2_inv in Hrows as [-> | ->];
      intros Hsorted; apply StronglySorted_cons in Hsorted as [Hhead _];
      apply Forall_cons in Hhead as [Hlt _]; simpl in Hlt; lia. }
  split; [|exact Hties].
  exists (to_NotificationOut <$> [Ex.tie "a"; Ex.tie "b"]).
  split; [reflexivity|]. by apply Hties.
Qed.

Lemma list_notifications_page_witness :
  ∃ items,
    list_notifications Ex.session Ex.db_feed
      = (inr (mkNotificationList items), Ex.db_feed)
    ∧ length items = 50%nat
    ∧ StronglySorted (λ a b, no_createdAt b < no_createdAt a) items.
Proof.
  destruct (list_notifications_page Ex.session Ex.alice Ex.db_feed eq_refl)
    as (rows & items & Hrun & _ & Hlen & _ & Hstrict & _).
  exists items. split; [exact Hrun|]. split; [exact Hlen|].
  apply Hstrict. apply (bool_decide_unpack (NoDup _)). vm_compute. exact I.
Defined.

(** * Further properties of the store *)

Section ProfileStore_more.

Context {Salt : Type}.
Variable hash_password : Salt → string → string.
Variable verify_password : string → string → bool.
Variable column_defaults : UserProfile.

Abbreviation seen' := (seen_profile column_defaults).
Abbreviation requestCode' := (requestCode hash_password column_defaults).
Abbreviation verifyCode' := (verifyCode verify_password column_defaults).
Abbreviation update_profile' := (update_profile column_defaults).
Abbreviation get_profile' := (get_profile column_defaults).

Lemma get_profile_run u row db :
  accounts db !! u = Some row →
  get_profile' u db
  = (inr (_to_out (mkUserAccount (row_id row) u (row_role row))
            (seen' db (row_id row))), db).
Proof.
  intros Hacc. unfold get_profile.
  by rewrite (unit_of_work column_defaults _ _ _ _ Hacc).
Qed.

(** X1: for a username without account, every method of the store raises
    [ValueError('Account not found')] and commits nothing. *)
Theorem store_account_not_found u db :
  accounts db !! u = None →
  get_profile' u db = (inl account_not_found, db)
  ∧ (∀ payload, update_profile' u payload db = (inl account_not_found, db))
  ∧ (∀ ch now randint salt v,
       requestCode' ch now randint salt u v db = (inl account_not_found, db))
  ∧ (∀ ch now code,
       verifyCode' ch now u code db = (inl account_not_found, db)).
Proof.
  intros Hacc. repeat split; intros.
  - by apply no_account.
  - by apply no_account.
  - by apply requestCode_no_account.
  - by apply verifyCode_no_account.
Qed.

(** X2: for an existing account, [get_profile] returns the view of the
    stored profile, or of the column defaults when there is no profile row,
    and commits nothing: a missing profile row is still missing
    afterwards. *)
Theorem get_profile_read_only u row db :
  accounts db !! u = Some row →
  ∃ out,
    get_profile' u db = (inr out, db)
    ∧ o_username out = u
    ∧ o_role out = row_role row
    ∧ (∀ p, profiles db !! row_id row = Some p →
         out = _to_out (mkUserAccount (row_id row) u (row_role row)) p)
    ∧ (profiles db !! row_id row = None →
       out = _to_out (mkUserAccount (row_id row) u (row_role row))
               column_defaults
       ∧ profiles (snd (get_profile' u db)) !! row_id row = None).
Proof.
  intros Hacc. rewrite (get_profile_run _ _ _ Hacc).
  eexists. split; [reflexivity|]. repeat split.
  - intros p Hp. by rewrite (seen_lookup _ _ _ _ Hp).
  - unfold seen_profile. by rewrite H.
  - done.
Qed.

(** X3: [get_profile] after a successful [update_profile] returns the view
    that [update_profile] returned, and changes nothing. *)
Theorem get_profile_after_update u payload row db out db' :
  accounts db !! u = Some row →
  update_profile column_defaults u payload db = (inr out, db') →
  get_profile column_defaults u db' = (inr out, db').
Proof.
  intros Hacc. rewrite (update_profile_run _ _ _ _ _ Hacc). cbv zeta.
  intros [= <- <-].
  rewrite (get_profile_run _ row) by done.
  by rewrite seen_stored.
Qed.

(** X4: a method of the store called for user [u] leaves the accounts, the
    notifications and the profile of every other user as they were. *)
Theorem store_frame u db :
  let unchanged (db' : DB) :=
    accounts db' = accounts db
    ∧ notifications db' = notifications db
    ∧ ∀ j, (∀ row, accounts db !! u = Some row → row_id row ≠ j) →
           profiles db' !! j = profiles db !! j in
  unchanged (snd (get_profile' u db))
  ∧ (∀ payload, unchanged (snd (update_profile' u payload db)))
  ∧ (∀ ch now randint salt v,
       unchanged (snd (requestCode' ch now randint salt u v db)))
  ∧ (∀ ch now code, unchanged (snd (verifyCode' ch now u code db))).
Proof.
  intros unchanged.
  assert (unchanged db) as Hsame by done.
  destruct (accounts db !! u) as [row|] eqn:Hacc.
  - assert (∀ p, unchanged (stored db (row_id row) p)) as Hstored.
    { intros p. repeat split. intros j Hj.
      apply stored_lookup_ne. by apply Hj. }
    split; [rewrite (get_profile_run _ _ _ Hacc); exact Hsame|].
    split.
    { intros. rewrite (update_profile_run _ _ _ _ _ Hacc). apply Hstored. }
    split.
    + intros. rewrite (requestCode_run _ _ _ _ _ _ _ _ _ _ Hacc). cbv zeta.
      destruct (rate_limited _ _); [exact Hsame|apply Hstored].
    + intros. rewrite (verifyCode_run _ _ _ _ _ _ _ _ Hacc). cbv zeta.
      destruct (no_usable_code _ _ _); [exact Hsame|].
      destruct (negb _); [exact Hsame|apply Hstored].
  - split; [unfold get_profile; rewrite no_account by done; exact Hsame|].
    split.
    { intros. unfold update_profile. rewrite no_account by done.
      exact Hsame. }
    split; intros.
    + rewrite requestCode_no_account by done. exact Hsame.
    + rewrite verifyCode_no_account by done. exact Hsame.
Qed.

(** *** Profile updates *)

Ltac keep f := rewrite ?(assign_frame f) by (intros; reflexivity).

(** [written payload H f]: the input field of [H] is present, and the
    assignments write the attribute [f]. *)
Ltac written payload H f :=
  unfold update_profile_assignments; cbv zeta;
  rewrite H; cbn [assign_if_present]; keep f; reflexivity.

(** X5: for an existing account, [update_profile] writes every display and
    preference field that is present in the input: the stored attribute and
    the returned view carry the input value. *)
Theorem update_profile_writes_present u payload row db :
  accounts db !! u = Some row →
  ∃ out p',
    update_profile' u payload db = (inr out, stored db (row_id row) p')
    ∧ (∀ v, p_firstName payload = Some v →
         first_name p' = Some v ∧ o_firstName out = Some v)
    ∧ (∀ v, p_lastName payload = Some v →
         last_name p' = Some v ∧ o_lastName out = Some v)
    ∧ (∀ v, p_displayName payload = Some v →
         display_name p' = Some v ∧ o_displayName out = Some v)
    ∧ (∀ v, p_avatarUrl payload = Some v →
         avatar_url p' = Some v ∧ o_avatarUrl out = Some v)
    ∧ (∀ v, p_bio payload = Some v → bio p' = Some v ∧ o_bio out = Some v)
    ∧ (∀ v, p_timezone payload = Some v →
         timezone p' = Some v ∧ o_timezone out = Some v)
    ∧ (∀ v, p_locale payload = Some v →
         locale p' = Some v ∧ o_locale out = Some v)
    ∧ (∀ v, p_marketingOptIn payload = Some v →
         marketing_opt_in p' = Some v ∧ o_marketingOptIn out = v)
    ∧ (∀ v, p_notifyPrefs payload = Some v →
         notify_prefs p' = Some v ∧ o_notifyPrefs out = v).
Proof.
  intros Hacc.
  rewrite (update_profile_run _ _ _ _ _ Hacc). cbv zeta.
  do 2 eexists. split; [reflexivity|].
  generalize (seen' db (row_id row)). intros p.
  repeat apply conj; intros v Hv; cbn [_to_out o_firstName o_lastName
    o_displayName o_avatarUrl o_bio o_timezone o_locale o_marketingOptIn
    o_notifyPrefs].
  - assert (first_name (update_profile_assignments payload p) = Some v)
      as -> by written payload Hv first_name. done.
  - assert (last_name (update_profile_assignments payload p) = Some v)
      as -> by written payload Hv last_name. done.
  - assert (display_name (update_profile_assignments payload p) = Some v)
      as -> by written payload Hv display_name. done.
  - assert (avatar_url (update_profile_assignments payload p) = Some v)
      as -> by written payload Hv avatar_url. done.
  - assert (bio (update_profile_assignments payload p) = Some v)
      as -> by written payload Hv bio. done.
  - assert (timezone (update_profile_assignments payload p) = Some v)
      as -> by written payload Hv timezone. done.
  - assert (locale (update_profile_assignments payload p) = Some v)
      as -> by written payload Hv locale. done.
  - assert (marketing_opt_in (update_profile_assignments payload p) = Some v)
      as -> by written payload Hv marketing_opt_in. done.
  - assert (notify_prefs (update_profile_assignments payload p) = Some v)
      as -> by written payload Hv notify_prefs. done.
Qed.

(** The reset of a channel does not fire when its value is absent or equal
    to the stored one. *)
Lemma assignments_keep_channels payload p :
  p_email payload = None ∨ p_email payload = email p →
  p_phoneE164 payload = None ∨ p_phoneE164 payload = phone_e164 p →
  let p' := update_profile_assignments payload p in
  email p' = email p
  ∧ phone_e164 p' = phone_e164 p
  ∧ email_verified_at p' = email_verified_at p
  ∧ phone_verified_at p' = phone_verified_at p
  ∧ verify_email_code_hash p' = verify_email_code_hash p
  ∧ verify_phone_code_hash p' = verify_phone_code_hash p
  ∧ verify_expires_at p' = verify_expires_at p
  ∧ verify_requested_at p' = verify_requested_at p.
Proof.
  intros He Hp. unfold update_profile_assignments. cbv zeta.
  keep email; keep phone_e164; keep email_verified_at;
    keep phone_verified_at; keep verify_email_code_hash;
    keep verify_phone_code_hash; keep verify_expires_at;
    keep verify_requested_at.
  assert (match p_email payload with
          | Some e =>
              if bool_decide (Some e ≠ email p) then
                set_verify_requested_at None
                  (set_verify_expires_at None
                     (set_verify_email_code_hash None
                        (set_email_verified_at None
                           (set_email (Py.or_None (Py.strip (Py.lower e)))
                              p))))
              else p
          | None => p
          end = p) as ->.
  { destruct He as [->| ->]; [done|].
    destruct (email p); [|done]. by rewrite bool_decide_false by naive_solver. }
  assert (match p_phoneE164 payload with
          | Some ph =>
              if bool_decide (Some ph ≠ phone_e164 p) then
                set_verify_requested_at None
                  (set_verify_expires_at None
                     (set_verify_phone_code_hash None
                        (set_phone_verified_at None
                           (set_phone_e164 (Py.or_None (Py.strip ph)) p))))
              else p
          | None => p
          end = p) as ->.
  { destruct Hp as [->| ->]; [done|].
    destruct (phone_e164 p); [|done].
    by rewrite bool_decide_false by naive_solver. }
  done.
Qed.

(** X6: for an existing account, [update_profile] with an email and a phone
    number that are each absent or equal to the stored value resets
    nothing: the values, the verified timestamps, the pending hashes, the
    expiry and the request timestamp are as they were. *)
Theorem update_profile_same_value_keeps_verification u payload row db :
  accounts db !! u = Some row →
  p_email payload = None ∨ p_email payload = email (seen' db (row_id row)) →
  p_phoneE164 payload = None
  ∨ p_phoneE164 payload = phone_e164 (seen' db (row_id row)) →
  ∃ out p',
    update_profile' u payload db = (inr out, stored db (row_id row) p')
    ∧ let p := seen' db (row_id row) in
      email p' = email p
      ∧ phone_e164 p' = phone_e164 p
      ∧ email_verified_at p' = email_verified_at p
      ∧ phone_verified_at p' = phone_verified_at p
      ∧ verify_email_code_hash p' = verify_email_code_hash p
      ∧ verify_phone_code_hash p' = verify_phone_code_hash p
      ∧ verify_expires_at p' = verify_expires_at p
      ∧ verify_requested_at p' = verify_requested_at p.
Proof.
  intros Hacc He Hp.
  rewrite (update_profile_run _ _ _ _ _ Hacc). cbv zeta.
  do 2 eexists. split; [reflexivity|].
  by apply assignments_keep_channels.
Qed.


(** *** Sequences of requests, verifications and updates *)

(** What a request that is not rate-limited commits. *)
Lemma requestCode_ok ch now randint salt u v row db :
  accounts db !! u = Some row →
  rate_limited now (seen' db (row_id row)) = false →
  ∃ p1,
    requestCode' ch now randint salt u v db
      = (inr (), stored db (row_id row) p1)
    ∧ code_hash ch p1 = Some (hash_password salt (_generate_code randint))
    ∧ code_hash (other ch) p1 = None
    ∧ verify_expires_at p1 = Some (now + code_ttl)
    ∧ verify_requested_at p1 = Some now
    ∧ value (other ch) p1 = value (other ch) (seen' db (row_id row)).
Proof.
  intros Hacc Hlim.
  rewrite (requestCode_run _ _ _ _ _ _ _ _ _ _ Hacc). cbv zeta.
  rewrite Hlim. eexists. split; [reflexivity|]. by destruct ch.
Qed.

Lemma accounts_stored db i p : accounts (stored db i p) = accounts db.
Proof. done. Qed.

(** Without a usable code every verification returns false. *)
Lemma verifyCode_unusable ch u row db p :
  accounts db !! u = Some row →
  code_hash ch p = None ∨ verify_expires_at p = None →
  ∀ now code,
    verifyCode' ch now u code (stored db (row_id row) p)
    = (inr false, stored db (row_id row) p).
Proof.
  intros Hacc Hp now code.
  rewrite (verifyCode_run _ _ _ _ _ _ row) by done. cbv zeta.
  rewrite seen_stored. unfold no_usable_code.
  destruct Hp as [-> | ->]; [done|]. by rewrite orb_true_r.
Qed.

(** Without a request timestamp every request succeeds. *)
Lemma requestCode_no_cooldown u row db p :
  accounts db !! u = Some row →
  verify_requested_at p = None →
  ∀ ch now randint salt v,
    ∃ db', requestCode' ch now randint salt u v (stored db (row_id row) p)
           = (inr (), db').
Proof.
  intros Hacc Hp ch now randint salt v.
  rewrite (requestCode_run _ _ _ _ _ _ _ _ row) by done. cbv zeta.
  rewrite seen_stored. unfold rate_limited. rewrite Hp. by eexists.
Qed.

(** X8: for an existing account that is not rate-limited, and a hashing
    utility that accepts the code it hashed (with a non-empty hash), a
    request followed by a verification with the issued code returns true
    and sets the verified timestamp when the verification is made no later
    than 15 minutes after the request, and returns false, changing
    nothing, when it is made later. *)
Theorem request_then_verify ch now now' randint salt u v row db :
  accounts db !! u = Some row →
  rate_limited now (seen' db (row_id row)) = false →
  Py.truthy (hash_password salt (_generate_code randint)) = true →
  verify_password (_generate_code randint)
    (hash_password salt (_generate_code randint)) = true →
  ∃ db1,
    requestCode' ch now randint salt u v db = (inr (), db1)
    ∧ (now' ≤ now + 15 * 60 * 1000000 →
       ∃ db2,
         verifyCode' ch now' u (_generate_code randint) db1 = (inr true, db2)
         ∧ verified_at ch (seen' db2 (row_id row)) = Some now')
    ∧ (now + 15 * 60 * 1000000 < now' →
       verifyCode' ch now' u (_generate_code randint) db1 = (inr false, db1)).
Proof.
  intros Hacc Hlim Htruthy Hverify.
  destruct (requestCode_ok ch now randint salt u v row db Hacc Hlim)
    as (p1 & -> & Hh & _ & Hx & _).
  eexists. split; [reflexivity|].
  rewrite !(verifyCode_run _ _ _ _ _ _ row) by done. cbv zeta.
  rewrite !seen_stored. unfold no_usable_code.
  rewrite Hh, Hx. simpl. rewrite Htruthy, Hverify. simpl.
  change (now + code_ttl) with (now + 15 * 60 * 1000000).
  split; intros Ht.
  - replace (now + 15 * 60 * 1000000 <? now') with false
      by (symmetry; apply Z.ltb_ge; lia).
    eexists. split; [reflexivity|].
    rewrite stored_twice, seen_stored. by destruct ch.
  - by replace (now + 15 * 60 * 1000000 <? now') with true
      by (symmetry; apply Z.ltb_lt; lia).
Qed.

(** X9: a request for one channel, followed after the cooldown by a
    request for the other channel, leaves no usable code for the first
    channel: every later verification for it returns false. *)
Theorem request_other_channel_invalidates
    ch t0 t1 r0 s0 v0 r1 s1 v1 u row db :
  accounts db !! u = Some row →
  rate_limited t0 (seen' db (row_id row)) = false →
  cooldown ≤ t1 - t0 →
  ∃ db1 db2,
    requestCode' ch t0 r0 s0 u v0 db = (inr (), db1)
    ∧ requestCode' (other ch) t1 r1 s1 u v1 db1 = (inr (), db2)
    ∧ ∀ now code, verifyCode' ch now u code db2 = (inr false, db2).
Proof.
  intros Hacc Hlim Ht.
  destruct (requestCode_ok ch t0 r0 s0 u v0 row db Hacc Hlim)
    as (p1 & -> & _ & _ & _ & Hr & _).
  destruct (requestCode_ok (other ch) t1 r1 s1 u v1 row
              (stored db (row_id row) p1))
    as (p2 & Hrun & _ & Hh & _); [done| |].
  { rewrite seen_stored. unfold rate_limited. rewrite Hr.
    apply Z.ltb_ge. exact Ht. }
  rewrite stored_twice in Hrun.
  do 2 eexists. split; [reflexivity|]. split; [exact Hrun|].
  apply verifyCode_unusable; [done|]. left. by destruct ch.
Qed.

Lemma assignments_keep_hash ch payload p :
  p_value ch payload = None →
  code_hash ch (update_profile_assignments payload p) = code_hash ch p.
Proof.
  intros Hv. unfold update_profile_assignments. cbv zeta.
  destruct ch; cbn [p_value code_hash] in *.
  - keep verify_email_code_hash. rewrite Hv.
    destruct (p_phoneE164 payload); [case_bool_decide|]; done.
  - keep verify_phone_code_hash. rewrite Hv.
    destruct (p_email payload); [case_bool_decide|]; done.
Qed.

(** X10: a request for one channel, followed by an [update_profile] that
    changes the value of the other channel only, keeps the pending hash of
    the first channel but clears the shared expiry: every later
    verification for the first channel returns false. *)
Theorem update_other_channel_invalidates
    ch t0 r0 s0 v0 payload e u row db :
  accounts db !! u = Some row →
  rate_limited t0 (seen' db (row_id row)) = false →
  p_value ch payload = None →
  p_value (other ch) payload = Some e →
  Some e ≠ value (other ch) (seen' db (row_id row)) →
  ∃ db1 out db2,
    requestCode' ch t0 r0 s0 u v0 db = (inr (), db1)
    ∧ update_profile' u payload db1 = (inr out, db2)
    ∧ code_hash ch (seen' db2 (row_id row))
      = Some (hash_password s0 (_generate_code r0))
    ∧ ∀ now code, verifyCode' ch now u code db2 = (inr false, db2).
Proof.
  intros Hacc Hlim Hnone He Hne.
  destruct (requestCode_ok ch t0 r0 s0 u v0 row db Hacc Hlim)
    as (p1 & -> & Hh & _ & _ & _ & Hval).
  exists (stored db (row_id row) p1).
  rewrite (update_profile_run _ _ _ row) by done. cbv zeta.
  rewrite seen_stored, stored_twice.
  do 2 eexists. split; [reflexivity|]. split; [reflexivity|].
  destruct (assignments_reset_channel (other ch) payload p1 e)
    as (_ & _ & Hx & _); [done|by rewrite Hval|].
  split; [by rewrite seen_stored, assignments_keep_hash|].
  apply verifyCode_unusable; [done|]. by right.
Qed.

(** X11: a successful verification clears the shared request timestamp:
    after it a request for either channel succeeds at any time, whatever
    the cooldown. *)
Theorem verify_success_lifts_cooldown ch now u code row db db' :
  accounts db !! u = Some row →
  verifyCode verify_password column_defaults ch now u code db
    = (inr true, db') →
  ∀ ch2 now2 randint salt v,
    ∃ db'',
      requestCode hash_password column_defaults ch2 now2 randint salt u v db'
      = (inr (), db'').
Proof.
  intros Hacc. rewrite (verifyCode_run _ _ _ _ _ _ _ _ Hacc). cbv zeta.
  destruct (no_usable_code _ _ _); [done|].
  destruct (negb _); [done|].
  intros [= <-]. by apply requestCode_no_cooldown.
Qed.

(** X12: an [update_profile] that changes the value of a channel clears
    the shared request timestamp: after it a request for either channel
    succeeds at any time, whatever the cooldown. *)
Theorem update_value_lifts_cooldown ch u payload e row db :
  accounts db !! u = Some row →
  p_value ch payload = Some e →
  Some e ≠ value ch (seen' db (row_id row)) →
  ∃ out db',
    update_profile' u payload db = (inr out, db')
    ∧ ∀ ch2 now2 randint salt v,
        ∃ db'', requestCode' ch2 now2 randint salt u v db' = (inr (), db'').
Proof.
  intros Hacc He Hne.
  rewrite (update_profile_run _ _ _ _ _ Hacc). cbv zeta.
  do 2 eexists. split; [reflexivity|].
  apply requestCode_no_cooldown; [done|].
  by destruct (assignments_reset_channel ch payload
                 (seen' db (row_id row)) e) as (_ & _ & _ & ? & _).
Qed.

Lemma assignments_hash_kept_or_cleared ch payload p :
  code_hash ch (update_profile_assignments payload p) = code_hash ch p
  ∨ code_hash ch (update_profile_assignments payload p) = None.
Proof.
  destruct (p_value ch payload) as [e|] eqn:He.
  - destruct (decide (Some e = value ch p)) as [Heq|Hne].
    + left. unfold update_profile_assignments. cbv zeta.
      destruct ch; cbn [p_value code_hash value] in *.
      * keep verify_email_code_hash. rewrite He, bool_decide_false by auto.
        destruct (p_phoneE164 payload); [case_bool_decide|]; done.
      * keep verify_phone_code_hash. rewrite He.
        destruct (p_email payload) as [e'|];
          [destruct (bool_decide (Some e' ≠ email _))|];
          by rewrite bool_decide_false by auto.
    + right. by destruct (assignments_reset_channel ch payload p e)
        as (_ & ? & _).
  - left. by apply assignments_keep_hash.
Qed.

(** X13: at most one channel has a pending code hash: this holds after
    every successful request, and no verification, update or request
    breaks it. *)
Theorem one_pending_invariant u row db :
  accounts db !! u = Some row →
  (∀ ch now randint salt v db',
     requestCode' ch now randint salt u v db = (inr (), db') →
     one_pending (seen' db' (row_id row)))
  ∧ (one_pending (seen' db (row_id row)) →
     (∀ ch now code,
        one_pending (seen' (snd (verifyCode' ch now u code db)) (row_id row)))
     ∧ (∀ payload,
          one_pending
            (seen' (snd (update_profile' u payload db)) (row_id row)))
     ∧ (∀ ch now randint salt v,
          one_pending
            (seen' (snd (requestCode' ch now randint salt u v db))
               (row_id row)))).
Proof.
  intros Hacc.
  assert (∀ ch now randint salt v,
            rate_limited now (seen' db (row_id row)) = false →
            one_pending
              (seen' (snd (requestCode' ch now randint salt u v db))
                 (row_id row))) as Hreq.
  { intros ch now randint salt v Hlim.
    destruct (requestCode_ok ch now randint salt u v row db Hacc Hlim)
      as (p1 & -> & _ & Hh & _).
    simpl. rewrite seen_stored. unfold one_pending.
    destruct ch; [by right|by left]. }
  split.
  - intros ch now randint salt v db' Hrun.
    destruct (rate_limited now (seen' db (row_id row))) eqn:Hlim.
    + rewrite (requestCode_run _ _ _ _ _ _ _ _ _ _ Hacc) in Hrun.
      cbv zeta in Hrun. by rewrite Hlim in Hrun.
    + specialize (Hreq ch now randint salt v Hlim).
      by rewrite Hrun in Hreq.
  - intros Hinv. repeat split.
    + intros ch now code.
      rewrite (verifyCode_run _ _ _ _ _ _ _ _ Hacc). cbv zeta.
      destruct (no_usable_code _ _ _); [done|].
      destruct (negb _); [done|].
      simpl. rewrite seen_stored. unfold one_pending in *.
      destruct ch; simpl; tauto.
    + intros payload.
      rewrite (update_profile_run _ _ _ _ _ Hacc). cbv zeta.
      simpl. rewrite seen_stored. unfold one_pending in *.
      destruct (assignments_hash_kept_or_cleared Email payload
                  (seen' db (row_id row))) as [He|He];
        destruct (assignments_hash_kept_or_cleared Phone payload
                    (seen' db (row_id row))) as [Hp|Hp];
        cbn [code_hash] in *; rewrite ?He, ?Hp; tauto.
    + intros ch now randint salt v.
      destruct (rate_limited now (seen' db (row_id row))) eqn:Hlim.
      * rewrite (requestCode_run _ _ _ _ _ _ _ _ _ _ Hacc). cbv zeta.
        by rewrite Hlim.
      * by apply Hreq.
Qed.

End ProfileStore_more.

(** * Normalised values and generated codes *)

(** ** [lower] and [strip] *)

Lemma isspace_lower_char c : Py.isspace (Py.lower_char c) = Py.isspace c.
Proof. by destruct c as [[] [] [] [] [] [] [] []]. Qed.

Lemma lower_char_idem c : Py.lower_char (Py.lower_char c) = Py.lower_char c.
Proof. by destruct c as [[] [] [] [] [] [] [] []]. Qed.

Lemma lower_idem s : Py.lower (Py.lower s) = Py.lower s.
Proof.
  induction s as [|c r IH]; simpl; [done|]. by rewrite lower_char_idem, IH.
Qed.

Lemma lower_lstrip s : Py.lower (Py.lstrip s) = Py.lstrip (Py.lower s).
Proof.
  induction s as [|c r IH]; simpl; [done|].
  rewrite isspace_lower_char. by destruct (Py.isspace c).
Qed.

Lemma lower_rstrip s : Py.lower (Py.rstrip s) = Py.rstrip (Py.lower s).
Proof.
  induction s as [|c r IH]; simpl; [done|].
  rewrite <- IH, isspace_lower_char.
  destruct (Py.rstrip r); simpl; [|done]. by destruct (Py.isspace c).
Qed.

Lemma lower_strip s : Py.lower (Py.strip s) = Py.strip (Py.lower s).
Proof. unfold Py.strip. by rewrite lower_rstrip, lower_lstrip. Qed.

Lemma rstrip_idem s : Py.rstrip (Py.rstrip s) = Py.rstrip s.
Proof.
  induction s as [|c r IH]; simpl; [done|].
  destruct (Py.rstrip r) as [|c' q] eqn:Hq.
  - destruct (Py.isspace c) eqn:Hc; simpl; [done|]. by rewrite Hc.
  - change (Py.rstrip (String c (String c' q)))
      with (match Py.rstrip (String c' q) with
            | EmptyString =>
                if Py.isspace c then EmptyString else String c EmptyString
            | r' => String c r'
            end).
    by rewrite IH.
Qed.

(** A string that does not start with white space. *)
Lemma lstrip_rstrip_lstrip s :
  Py.lstrip (Py.rstrip (Py.lstrip s)) = Py.rstrip (Py.lstrip s).
Proof.
  induction s as [|c r IH]; cbn [Py.lstrip]; [done|].
  destruct (Py.isspace c) eqn:Hc; [done|].
  cbn [Py.rstrip].
  destruct (Py.rstrip r); rewrite ?Hc; cbn [Py.lstrip]; by rewrite Hc.
Qed.

Lemma strip_idem s : Py.strip (Py.strip s) = Py.strip s.
Proof.
  unfold Py.strip. by rewrite lstrip_rstrip_lstrip, rstrip_idem.
Qed.

Lemma lstrip_all_space s :
  Py.all Py.isspace s = true → Py.lstrip s = EmptyString.
Proof.
  induction s as [|c r IH]; simpl; [done|].
  intros [-> Hr]%andb_true_iff. by apply IH.
Qed.

Lemma strip_all_space s :
  Py.all Py.isspace s = true → Py.strip s = EmptyString.
Proof. intros Hs. unfold Py.strip. by rewrite lstrip_all_space. Qed.

Lemma lower_all_space s :
  Py.all Py.isspace s = true → Py.all Py.isspace (Py.lower s) = true.
Proof.
  induction s as [|c r IH]; simpl; [done|].
  rewrite isspace_lower_char. intros [-> Hr]%andb_true_iff. by apply IH.
Qed.

(** ** Decimal digits *)

Lemma of_uint_acc_lower_bound d acc :
  Z.pos acc * 10 ^ Z.of_nat (Decimal.nb_digits d)
  ≤ Z.pos (Pos.of_uint_acc d acc).
Proof.
  revert acc.
  induction d as [|d IH|d IH|d IH|d IH|d IH|d IH|d IH|d IH|d IH|d IH];
    intros acc; cbn [Decimal.nb_digits Pos.of_uint_acc];
    [rewrite Z.pow_0_r; lia|..];
    (etrans; [|apply IH]);
    rewrite Nat2Z.inj_succ, Z.pow_succ_r by lia;
    assert (0 ≤ 10 ^ Z.of_nat (Decimal.nb_digits d))
      by (apply Z.pow_nonneg; lia);
    nia.
Qed.

(** The decimal writing of a positive number has no leading zero. *)
Lemma to_uint_head p :
  match Pos.to_uint p with
  | Decimal.Nil | Decimal.D0 _ => False
  | _ => True
  end.
Proof.
  pose proof (DecimalPos.Unsigned.to_uint_nonnil p) as Hnil.
  pose proof (DecimalPos.Unsigned.to_uint_nonzero p) as Hzero.
  pose proof (DecimalPos.Unsigned.to_of (Pos.to_uint p)) as Hnorm.
  rewrite DecimalPos.Unsigned.of_to in Hnorm. simpl in Hnorm.
  destruct (Pos.to_uint p) as [|l| | | | | | | | |] eqn:Hd; try done.
  rewrite DecimalFacts.unorm_D0 in Hnorm.
  unfold Decimal.unorm in Hnorm.
  destruct (Decimal.nzhead l) as [|l0| | | | | | | | |] eqn:Hl;
    try discriminate Hnorm.
  - by apply Hzero.
  - exact (DecimalFacts.nzhead_nonzero l l0 Hl).
Qed.

Lemma nb_digits_bound p :
  10 ^ (Z.of_nat (Decimal.nb_digits (Pos.to_uint p)) - 1) ≤ Z.pos p.
Proof.
  pose proof (to_uint_head p) as Hhead.
  pose proof (DecimalPos.Unsigned.of_to p) as Hp.
  destruct (Pos.to_uint p) as [|l|l|l|l|l|l|l|l|l|l]; try done;
    cbn [Pos.of_uint] in Hp; injection Hp as <-;
    cbn [Decimal.nb_digits];
    (etrans; [|apply of_uint_acc_lower_bound]);
    rewrite Nat2Z.inj_succ;
    replace (Z.succ (Z.of_nat (Decimal.nb_digits l)) - 1)
      with (Z.of_nat (Decimal.nb_digits l)) by lia;
    assert (0 ≤ 10 ^ Z.of_nat (Decimal.nb_digits l))
      by (apply Z.pow_nonneg; lia);
    lia.
Qed.

Lemma length_string_of_uint d :
  String.length (NilEmpty.string_of_uint d) = Decimal.nb_digits d.
Proof. induction d; simpl; congruence. Qed.

Lemma isdigit_string_of_uint d :
  Py.all Py.isdigit (NilEmpty.string_of_uint d) = true.
Proof. induction d; simpl; done. Qed.

Lemma length_zeros k : String.length (Py.zeros k) = k.
Proof. induction k; simpl; congruence. Qed.

Lemma all_append f a b :
  Py.all f (String.append a b) = Py.all f a && Py.all f b.
Proof. induction a as [|c a IH]; simpl; [done|]. by rewrite IH, andb_assoc. Qed.

Lemma isdigit_zeros k : Py.all Py.isdigit (Py.zeros k) = true.
Proof. induction k; simpl; done. Qed.

Lemma uint_of_string_zeros k s :
  NilEmpty.uint_of_string (String.append (Py.zeros k) s)
  = Nat.iter k Decimal.D0 <$> NilEmpty.uint_of_string s.
Proof.
  induction k as [|k IH]; cbn [Py.zeros].
  - change (String.append EmptyString s) with s.
    by destruct (NilEmpty.uint_of_string s).
  - change (String.append (String "0" (Py.zeros k)) s)
      with (String "0" (String.append (Py.zeros k) s)).
    cbn [NilEmpty.uint_of_string]. rewrite IH.
    by destruct (NilEmpty.uint_of_string s).
Qed.

Lemma of_uint_iter_D0 k d : N.of_uint (Nat.iter k Decimal.D0 d) = N.of_uint d.
Proof. induction k; simpl; done. Qed.

(** The decimal writing of [n >= 0], which [format_0d] pads. *)
Lemma format_0d_eq w n :
  0 ≤ n →
  Py.format_0d w n
  = String.append
      (Py.zeros (w - Decimal.nb_digits (N.to_uint (Z.to_N n))))
      (NilEmpty.string_of_uint (N.to_uint (Z.to_N n)))
  ∧ N.to_uint (Z.to_N n) ≠ Decimal.Nil.
Proof.
  intros Hn. unfold Py.format_0d.
  assert (N.to_uint (Z.to_N n) ≠ Decimal.Nil) as Hnil.
  { destruct (Z.to_N n); simpl; [done|].
    apply DecimalPos.Unsigned.to_uint_nonnil. }
  split; [|done].
  destruct (N.to_uint (Z.to_N n)) eqn:Hd; try done;
    cbn [NilZero.string_of_uint]; by rewrite <- length_string_of_uint.
Qed.

Lemma length_string_append a b :
  String.length (String.append a b) = (String.length a + String.length b)%nat.
Proof.
  induction a as [|c a IH]; [done|].
  change (String.append (String c a) b) with (String c (String.append a b)).
  simpl. by rewrite IH.
Qed.

Lemma int_format_0d w n : 0 ≤ n → Py.int (Py.format_0d w n) = Some n.
Proof.
  intros Hn. destruct (format_0d_eq w n Hn) as [-> Hnil].
  unfold Py.int.
  assert (NilZero.uint_of_string
            (String.append
               (Py.zeros (w - Decimal.nb_digits (N.to_uint (Z.to_N n))))
               (NilEmpty.string_of_uint (N.to_uint (Z.to_N n))))
          = Some (Nat.iter (w - Decimal.nb_digits (N.to_uint (Z.to_N n)))
                    Decimal.D0 (N.to_uint (Z.to_N n)))) as ->.
  { pose proof (uint_of_string_zeros
                  (w - Decimal.nb_digits (N.to_uint (Z.to_N n)))
                  (NilEmpty.string_of_uint (N.to_uint (Z.to_N n)))) as Hz.
    rewrite NilEmpty.usu in Hz. simpl in Hz. rewrite <- Hz.
    unfold NilZero.uint_of_string.
    destruct (N.to_uint (Z.to_N n)) eqn:Hd; [done|..];
      by destruct (Py.zeros _). }
  simpl. rewrite of_uint_iter_D0, DecimalN.Unsigned.of_to.
  f_equal. lia.
Qed.

(** X16: for a draw between 0 and 999999, [_generate_code] returns a
    string of exactly six decimal digits that reads back as the draw;
    different draws give different codes. *)
Theorem generate_code_format randint :
  0 ≤ randint ≤ 999999 →
  String.length (_generate_code randint) = 6%nat
  ∧ Py.all Py.isdigit (_generate_code randint) = true
  ∧ Py.int (_generate_code randint) = Some randint
  ∧ ∀ randint2,
      0 ≤ randint2 ≤ 999999 →
      _generate_code randint2 = _generate_code randint →
      randint2 = randint.
Proof.
  intros [Hlo Hhi]. unfold _generate_code.
  split; [|split; [|split]].
  - destruct (format_0d_eq 6 randint Hlo) as [-> _].
    rewrite length_string_append, length_zeros, length_string_of_uint.
    assert (Decimal.nb_digits (N.to_uint (Z.to_N randint)) ≤ 6)%nat; [|lia].
    destruct (Z.to_N randint) as [|p] eqn:Hp; simpl; [lia|].
    pose proof (nb_digits_bound p) as Hb.
    assert (Z.pos p = randint) as Hz by lia.
    apply Nat2Z.inj_le.
    assert (Z.of_nat (Decimal.nb_digits (Pos.to_uint p)) - 1 < 6); [|lia].
    apply (Z.pow_lt_mono_r_iff 10); lia.
  - destruct (format_0d_eq 6 randint Hlo) as [-> _].
    by rewrite all_append, isdigit_zeros, isdigit_string_of_uint.
  - by apply int_format_0d.
  - intros randint2 [Hlo2 _] Heq.
    apply (f_equal Py.int) in Heq.
    rewrite !int_format_0d in Heq by done. congruence.
Qed.

(** ** The values the store writes *)

Lemma normalise_idem ch v : normalise ch (normalise ch v) = normalise ch v.
Proof.
  destruct ch; simpl.
  - by rewrite lower_strip, lower_idem, strip_idem.
  - apply strip_idem.
Qed.

Lemma normalise_all_space ch v :
  Py.all Py.isspace v = true → normalise ch v = EmptyString.
Proof.
  intros Hv. destruct ch; simpl.
  - by apply strip_all_space, lower_all_space.
  - by apply strip_all_space.
Qed.

Section Normalised.

Context {Salt : Type}.
Variable hash_password : Salt → string → string.
Variable column_defaults : UserProfile.

(** X14: for an input made of white space only (or empty), a successful
    request stores the empty string as the value of the channel, while an
    [update_profile] that changes the value stores null. *)
Theorem blank_value_stored ch now randint salt u v row db :
  accounts db !! u = Some row →
  Py.all Py.isspace v = true →
  (rate_limited now (seen_profile column_defaults db (row_id row)) = false →
   ∃ p1,
     requestCode hash_password column_defaults ch now randint salt u v db
       = (inr (), stored db (row_id row) p1)
     ∧ value ch p1 = Some EmptyString)
  ∧ (∀ payload,
       p_value ch payload = Some v →
       Some v ≠ value ch (seen_profile column_defaults db (row_id row)) →
       ∃ out p',
         update_profile column_defaults u payload db
           = (inr out, stored db (row_id row) p')
         ∧ value ch p' = None).
Proof.
  intros Hacc Hv. split.
  - intros Hlim.
    rewrite (requestCode_run _ _ _ _ _ _ _ _ _ _ Hacc). cbv zeta.
    rewrite Hlim. eexists. split; [reflexivity|].
    rewrite <- (normalise_all_space ch v Hv). by destruct ch.
  - intros payload Hp Hne.
    rewrite (update_profile_run _ _ _ _ _ Hacc). cbv zeta.
    do 2 eexists. split; [reflexivity|].
    destruct (assignments_reset_channel ch payload
                (seen_profile column_defaults db (row_id row)) v)
      as (_ & _ & _ & _ & ->); [done..|].
    by rewrite normalise_all_space.
Qed.

(** X15: the value a channel stores is in normal form (for an email: no
    ASCII capital and no surrounding white space; for a phone number: no
    surrounding white space): normalising it again gives the same string.
    This holds for the value written by a successful request and for the
    value, when not null, written by an [update_profile] that changes
    it. *)
Theorem stored_value_normalised ch now randint salt u v row db :
  accounts db !! u = Some row →
  (rate_limited now (seen_profile column_defaults db (row_id row)) = false →
   ∃ p1 s,
     requestCode hash_password column_defaults ch now randint salt u v db
       = (inr (), stored db (row_id row) p1)
     ∧ value ch p1 = Some s
     ∧ normalise ch s = s)
  ∧ (∀ payload,
       p_value ch payload = Some v →
       Some v ≠ value ch (seen_profile column_defaults db (row_id row)) →
       ∃ out p',
         update_profile column_defaults u payload db
           = (inr out, stored db (row_id row) p')
         ∧ (value ch p' = None
            ∨ ∃ s, value ch p' = Some s ∧ s ≠ EmptyString
                   ∧ normalise ch s = s)).
Proof.
  intros Hacc. split.
  - intros Hlim.
    rewrite (requestCode_run _ _ _ _ _ _ _ _ _ _ Hacc). cbv zeta.
    rewrite Hlim. eexists. exists (normalise ch v).
    split; [reflexivity|]. split; [by destruct ch|apply normalise_idem].
  - intros payload Hp Hne.
    rewrite (update_profile_run _ _ _ _ _ Hacc). cbv zeta.
    do 2 eexists. split; [reflexivity|].
    destruct (assignments_reset_channel ch payload
                (seen_profile column_defaults db (row_id row)) v)
      as (_ & _ & _ & _ & ->); [done..|].
    unfold Py.or_None.
    destruct (normalise ch v) as [|c r] eqn:Hn; [by left|].
    right. exists (String c r). split; [done|]. split; [done|].
    rewrite <- Hn. apply normalise_idem.
Qed.

End Normalised.

(** * Further properties of the notification feed *)

(** ** Sorting and filtering commute with a map that keeps the keys *)

Section fmap_sort.

Context {A : Type} (R : relation A) `{∀ x y, Decision (R x y)}.
Variable f : A → A.
Hypothesis f_keeps : ∀ x y, R (f x) (f y) ↔ R x y.

Local Abbreviation on_stack :=
  (fmap (M:=list) (fmap (M:=option) (fmap (M:=list) f))).

Lemma list_merge_fmap (l1 l2 : list A) :
  list_merge R (f <$> l1) (f <$> l2) = f <$> list_merge R l1 l2.
Proof.
  revert l2. induction l1 as [|x1 l1 IH1]; intros l2; [by destruct l2|].
  induction l2 as [|x2 l2 IH2]; [done|].
  csimpl. rewrite (decide_ext (R (f x1) (f x2)) (R x1 x2)) by apply f_keeps.
  case_decide; csimpl; f_equal.
  - apply (IH1 (x2 :: l2)).
  - apply IH2.
Qed.

Lemma merge_list_to_stack_fmap (st : list (option (list A))) (l : list A) :
  merge_list_to_stack R (on_stack st) (f <$> l)
  = on_stack (merge_list_to_stack R st l).
Proof.
  revert l. induction st as [|[l'|] st IH]; intros l; csimpl; [done| |done].
  by rewrite list_merge_fmap, IH.
Qed.

Lemma merge_stack_fmap (st : list (option (list A))) :
  merge_stack R (on_stack st) = f <$> merge_stack R st.
Proof.
  induction st as [|[l'|] st IH]; csimpl; [done| |done].
  by rewrite IH, list_merge_fmap.
Qed.

Lemma merge_sort_aux_fmap (st : list (option (list A))) (l : list A) :
  merge_sort_aux R (on_stack st) (f <$> l) = f <$> merge_sort_aux R st l.
Proof.
  revert st. induction l as [|x l IH]; intros st; csimpl.
  - apply merge_stack_fmap.
  - rewrite <- IH. f_equal. apply (merge_list_to_stack_fmap st [x]).
Qed.

Lemma merge_sort_fmap (l : list A) :
  merge_sort R (f <$> l) = f <$> merge_sort R l.
Proof. apply (merge_sort_aux_fmap []). Qed.

End fmap_sort.

Lemma filter_fmap_keeps {A} (P : A → Prop) `{∀ x, Decision (P x)}
    (f : A → A) (l : list A) :
  (∀ x, P (f x) ↔ P x) →
  filter P (f <$> l) = f <$> filter P l.
Proof.
  intros Hf. induction l as [|x l IH]; [done|].
  csimpl. rewrite !filter_cons, IH.
  rewrite (decide_ext (P (f x)) (P x)) by apply Hf.
  by case_decide.
Qed.

(** ** Listing and marking *)

Section Notifications_more.

Implicit Types (db : DB) (session : Session) (row : AccountRow).

(** The rows of the caller with the identifier [nid]. *)
Lemma mark_notification_read_run now nid session row db :
  accounts db !! s_username session = Some row →
  mark_notification_read now nid session db
  = match head (filter (λ n, n_id n = nid ∧ n_user_id n = row_id row)
                  (notifications db)) with
    | None => (inl (HTTPException 404 "Notification not found"), db)
    | Some _ =>
        (inr (mkResponse 204),
         mkDB (accounts db) (profiles db)
           (update_read_at nid (Some now) (notifications db)))
    end.
Proof.
  intros Hacc.
  cbv [mark_notification_read with_session _get_user mbind Tx_bind mret
         Tx_ret raise scalar_account scalar_notification commit_read_at
         working committed].
  rewrite Hacc. cbn [fmap option_fmap option_map id].
  destruct (head _) as [notif|] eqn:Hhead; [|done].
  apply head_Some_elem_of, list_elem_of_filter in Hhead as [[-> _] _]. done.
Qed.

(** X17: for a session whose account is missing, listing and marking both
    raise the 404 'Account not found' and change nothing. *)
Theorem notifications_account_not_found session db :
  accounts db !! s_username session = None →
  list_notifications session db
    = (inl (HTTPException 404 "Account not found"), db)
  ∧ ∀ now nid,
      mark_notification_read now nid session db
      = (inl (HTTPException 404 "Account not found"), db).
Proof.
  intros Hacc.
  cbv [list_notifications mark_notification_read with_session _get_user
         mbind Tx_bind mret Tx_ret raise scalar_account working committed].
  by rewrite Hacc.
Qed.

(** X18: marking fails with the 404 'Notification not found', and changes
    nothing, when no notification of the caller has the identifier: the
    identifier is unknown or belongs to a notification of another user. *)
Theorem mark_notification_read_not_found now nid session row db :
  accounts db !! s_username session = Some row →
  (∀ n, n ∈ notifications db → n_id n = nid → n_user_id n ≠ row_id row) →
  mark_notification_read now nid session db
  = (inl (HTTPException 404 "Notification not found"), db).
Proof.
  intros Hacc Hnone. rewrite (mark_notification_read_run _ _ _ _ _ Hacc).
  destruct (head _) as [notif|] eqn:Hhead; [|done].
  apply head_Some_elem_of, list_elem_of_filter in Hhead as [[Hid Hu] Hin].
  by destruct (Hnone notif Hin Hid).
Qed.

Lemma owned_found nid row db n :
  n ∈ notifications db → n_id n = nid → n_user_id n = row_id row →
  is_Some (head (filter (λ n, n_id n = nid ∧ n_user_id n = row_id row)
                   (notifications db))).
Proof.
  intros Hin Hid Hu. apply head_is_Some.
  intros Hnil.
  assert (n ∈ filter (λ n, n_id n = nid ∧ n_user_id n = row_id row)
                (notifications db)) as Hn
    by (by apply list_elem_of_filter).
  rewrite Hnil in Hn. by apply not_elem_of_nil in Hn.
Qed.

(** X19: marking a notification of the caller returns 204 and sets the
    read timestamp of the rows with that identifier to [now]; every other
    column and every other row, the accounts and the profiles are as they
    were. With [id] as primary key, no row of another user changes. *)
Theorem mark_notification_read_marks now nid session row db n :
  accounts db !! s_username session = Some row →
  n ∈ notifications db →
  n_id n = nid →
  n_user_id n = row_id row →
  ∃ db',
    mark_notification_read now nid session db = (inr (mkResponse 204), db')
    ∧ accounts db' = accounts db
    ∧ profiles db' = profiles db
    ∧ Forall2 (λ m m',
                 n_id m' = n_id m
                 ∧ n_user_id m' = n_user_id m
                 ∧ n_type m' = n_type m
                 ∧ n_data m' = n_data m
                 ∧ n_created_at m' = n_created_at m
                 ∧ n_read_at m'
                   = if decide (n_id m = nid) then Some now else n_read_at m)
        (notifications db) (notifications db')
    ∧ (primary_key (notifications db) →
       Forall2 (λ m m', n_user_id m ≠ row_id row → m' = m)
         (notifications db) (notifications db')).
Proof.
  intros Hacc Hin Hid Hu.
  rewrite (mark_notification_read_run _ _ _ _ _ Hacc).
  destruct (owned_found nid row db n Hin Hid Hu) as [notif ->].
  eexists. split; [reflexivity|]. split; [done|]. split; [done|].
  cbn [notifications]. unfold update_read_at. split.
  - apply Forall2_fmap_r, Forall_Forall2_diag, Forall_forall.
    intros m _. cbv [compose]. by destruct (decide (n_id m = nid)).
  - intros Hpk.
    apply Forall2_fmap_r, Forall_Forall2_diag, Forall_forall.
    intros m Hm Hother. cbv [compose].
    destruct (decide (n_id m = nid)) as [Hmid|]; [|done].
    assert (m = n); [|congruence].
    unfold primary_key in Hpk.
    apply list_elem_of_lookup in Hm as [i Hi].
    apply list_elem_of_lookup in Hin as [j Hj].
    assert (i = j); [|congruence].
    apply (NoDup_lookup _ i j (n_id m) Hpk);
      rewrite list_lookup_fmap; [by rewrite Hi|].
    rewrite Hj. simpl. congruence.
Qed.

Lemma feed_update_read_at nid v db i :
  feed (mkDB (accounts db) (profiles db)
          (update_read_at nid v (notifications db))) i
  = (λ n, if decide (n_id n = nid) then set_n_read_at v n else n)
      <$> feed db i.
Proof.
  unfold feed, order_by_created_at_desc, where_user_id, update_read_at.
  cbn [notifications].
  rewrite filter_fmap_keeps by (intros m; by destruct (decide (n_id m = nid))).
  apply merge_sort_fmap.
  intros a b. unfold created_at_desc.
  by destruct (decide (n_id a = nid)), (decide (n_id b = nid)).
Qed.

(** With pairwise distinct creation times the query fixes the order of
    the rows of a user: every descending arrangement of them is the one
    the listing uses. *)
Lemma feed_unique db i (rows : list Notification) :
  NoDup (n_created_at <$> where_user_id i (notifications db)) →
  rows ≡ₚ where_user_id i (notifications db) →
  StronglySorted created_at_desc rows →
  rows = feed db i.
Proof.
  intros Hnd Hperm Hsorted.
  apply (StronglySorted_unique_strong created_at_desc);
    [|done|apply feed_sorted|by rewrite feed_Permutation].
  intros a b Ha Hb Hab Hba. unfold created_at_desc in *.
  rewrite Hperm in Ha. rewrite feed_Permutation in Hb.
  apply list_elem_of_lookup in Ha as [j Hj].
  apply list_elem_of_lookup in Hb as [k Hk].
  assert (j = k); [|congruence].
  apply (NoDup_lookup _ j k (n_created_at a) Hnd);
    rewrite list_lookup_fmap; [by rewrite Hj|].
  rewrite Hk. simpl. f_equal. lia.
Qed.

(** X20: when the creation times of the notifications of the caller are
    pairwise distinct (so that the query fixes the order of a listing),
    marking a notification of the caller does not change which
    notifications a listing returns, nor their order: the listing after
    the marking is the listing before it with the read timestamp of the
    items with that identifier set to [now]. This is so for every
    descending arrangement of the rows that the database may return after
    the marking. *)
Theorem list_after_mark now nid session row db n :
  accounts db !! s_username session = Some row →
  NoDup (n_created_at <$> where_user_id (row_id row) (notifications db)) →
  n ∈ notifications db →
  n_id n = nid →
  n_user_id n = row_id row →
  ∃ items db',
    list_notifications session db = (inr (mkNotificationList items), db)
    ∧ mark_notification_read now nid session db
      = (inr (mkResponse 204), db')
    ∧ list_notifications session db'
      = (inr (mkNotificationList
                ((λ o, if decide (no_id o = nid)
                       then mkNotificationOut (no_id o) (no_type o)
                              (no_data o) (no_createdAt o) (Some now)
                       else o) <$> items)), db')
    ∧ ∀ rows',
        rows' ≡ₚ where_user_id (row_id row) (notifications db') →
        StronglySorted created_at_desc rows' →
        to_NotificationOut <$> take 50 rows'
        = (λ o, if decide (no_id o = nid)
                then mkNotificationOut (no_id o) (no_type o)
                       (no_data o) (no_createdAt o) (Some now)
                else o) <$> items.
Proof.
  intros Hacc Hdistinct Hin Hid Hu.
  rewrite (list_notifications_run _ _ _ Hacc).
  rewrite (mark_notification_read_run _ _ _ _ _ Hacc).
  destruct (owned_found nid row db n Hin Hid Hu) as [notif ->].
  do 2 eexists. split; [reflexivity|]. split; [reflexivity|].
  set (db' := mkDB (accounts db) (profiles db)
                (update_read_at nid (Some now) (notifications db))).
  assert (to_NotificationOut <$> take 50 (feed db' (row_id row))
          = (λ o, if decide (no_id o = nid)
                  then mkNotificationOut (no_id o) (no_type o)
                         (no_data o) (no_createdAt o) (Some now)
                  else o)
              <$> (to_NotificationOut <$> take 50 (feed db (row_id row))))
    as Hlisting.
  { unfold db'.
    rewrite feed_update_read_at, <- fmap_take, <- !list_fmap_compose.
    apply list_fmap_ext. intros _ m _.
    cbv [compose to_NotificationOut no_id].
    by destruct (decide (n_id m = nid)). }
  split.
  - rewrite (list_notifications_run _ row) by done. by rewrite Hlisting.
  - intros rows' Hperm Hsorted.
    rewrite <- Hlisting. do 2 f_equal.
    apply feed_unique; [|done..].
    unfold db', update_read_at, where_user_id. cbn [notifications].
    rewrite filter_fmap_keeps
      by (intros m; by destruct (decide (n_id m = nid))).
    rewrite <- list_fmap_compose.
    erewrite list_fmap_ext; [exact Hdistinct|].
    intros _ m _. cbv [compose]. by destruct (decide (n_id m = nid)).
Qed.

(** X21: marking again overwrites the read timestamp: after a marking at
    [t1] and a marking at [t2], the database is the one a single marking
    at [t2] gives. *)
Theorem mark_notification_read_again t1 t2 nid session row db n :
  accounts db !! s_username session = Some row →
  n ∈ notifications db →
  n_id n = nid →
  n_user_id n = row_id row →
  ∃ db1 db2,
    mark_notification_read t1 nid session db = (inr (mkResponse 204), db1)
    ∧ mark_notification_read t2 nid session db1 = (inr (mkResponse 204), db2)
    ∧ mark_notification_read t2 nid session db = (inr (mkResponse 204), db2).
Proof.
  intros Hacc Hin Hid Hu.
  rewrite !(mark_notification_read_run _ _ _ _ _ Hacc).
  destruct (owned_found nid row db n Hin Hid Hu) as [notif ->].
  do 2 eexists. split; [reflexivity|].
  rewrite (mark_notification_read_run _ _ _ row) by done.
  destruct (owned_found nid row
              (mkDB (accounts db) (profiles db)
                 (update_read_at nid (Some t1) (notifications db)))
              (set_n_read_at (Some t1) n)) as [notif' ->]; [|done..|].
  { cbn [notifications]. unfold update_read_at.
    apply list_elem_of_fmap. exists n. split; [|done].
    by rewrite decide_True. }
  split; [|reflexivity].
  cbn [notifications accounts profiles].
  do 2 f_equal. unfold update_read_at.
  rewrite <- list_fmap_compose. apply list_fmap_ext. intros _ m _.
  cbv [compose].
  destruct (decide (n_id m = nid)) as [Hm|Hm].
  - by rewrite decide_True.
  - by rewrite decide_False.
Qed.

(** X22: when the caller has at most 50 notifications, the listing returns
    every one of them, once. *)
Theorem list_notifications_all session row db :
  accounts db !! s_username session = Some row →
  (length (where_user_id (row_id row) (notifications db)) ≤ 50)%nat →
  ∃ items,
    list_notifications session db = (inr (mkNotificationList items), db)
    ∧ items
      ≡ₚ to_NotificationOut <$> where_user_id (row_id row) (notifications db).
Proof.
  intros Hacc Hlen. rewrite (list_notifications_run _ _ _ Hacc).
  eexists. split; [reflexivity|].
  rewrite take_ge by (by rewrite (Permutation_length (feed_Permutation _ _))).
  by rewrite feed_Permutation.
Qed.

End Notifications_more.

(** * Properties of the authentication handlers *)

Section Auth_facts.

Variable W : Type.
Variable SESSION_TTL_MINUTES : Z.
Variable create_member : string → string → Eff W UserRecord.
Variable verify_credentials : string → string → string → Eff W UserRecord.
Variable session_record_signup : string → string → Eff W unit.
Variable session_create : string → string → Eff W Session.
Variable session_invalidate : string → Eff W unit.
Variable event_record_signup : string → string → Eff W unit.

Abbreviation signup' :=
  (signup W create_member session_record_signup event_record_signup).
Abbreviation login' :=
  (login W SESSION_TTL_MINUTES verify_credentials session_create).
Abbreviation logout' := (logout W session_invalidate).

(** X23: a username made of white space only (or empty) is rejected by
    [signup] and by [login] with the 400 'Username cannot be empty', before
    any service is called: their state is unchanged. *)
Theorem blank_username_rejected name :
  Py.all Py.isspace name = true →
  (∀ password w,
     signup' (mkSignupPayload name password) w = (inl empty_username, w))
  ∧ (∀ password role response w,
       login' (mkLoginPayload name password role) response w
       = (inl empty_username, w)).
Proof.
  intros Hname.
  split; intros; unfold signup, login; cbn [sp_username lp_username];
    by rewrite (strip_all_space name Hname).
Qed.

(** X24: a [login] whose credentials the user store accepts and for which
    the session manager creates a session adds two cookies to the response,
    ['session_token'] (the token, http-only) and ['session_role'] (the
    role, readable by scripts), both with same-site policy lax and a
    maximal age of [SESSION_TTL_MINUTES * 60] seconds; its body carries the
    token, role and username of the session, and greets an admin with
    'Welcome back, admin!' and everyone else with 'You are now online.'. *)
Theorem login_sets_cookies payload response record session w w1 w2 :
  Py.strip (lp_username payload) ≠ EmptyString →
  verify_credentials (Py.strip (lp_username payload)) (lp_password payload)
    (lp_role payload) w = (inr record, w1) →
  session_create (rec_username record) (rec_role record) w1
    = (inr session, w2) →
  ∃ body,
    login' payload response w
    = (inr (body,
            (response
             ++ [set_cookie "session_token" (token session) true "lax"
                   (SESSION_TTL_MINUTES * 60);
                 set_cookie "session_role" (s_role session) false "lax"
                   (SESSION_TTL_MINUTES * 60)])%list), w2)
    ∧ lr_token body = token session
    ∧ lr_role body = s_role session
    ∧ lr_username body = s_username session
    ∧ (rec_role record = "admin" → lr_message body = "Welcome back, admin!")
    ∧ (rec_role record ≠ "admin" → lr_message body = "You are now online.").
Proof.
  intros Hname Hcred Hsess. unfold login.
  destruct (Py.strip (lp_username payload)) as [|c r] eqn:Hs; [done|].
  cbv [Py.truthy negb mbind Eff_bind mret Eff_ret].
  rewrite Hcred, Hsess. eexists. split.
  - by rewrite <- app_assoc.
  - cbn [lr_token lr_role lr_username lr_message]. repeat split.
    + by intros ->.
    + intros Hrole. by rewrite (proj2 (String.eqb_neq _ _) Hrole).
Qed.

(** X25: [logout] deletes the cookies that [login] sets: after a successful
    login and a successful logout, both on a response without cookies, the
    names deleted are the names set, and [logout] answers 204. *)
Theorem logout_deletes_login_cookies
    payload session body ops1 r ops2 w w1 w2 :
  login' payload [] w = (inr (body, ops1), w1) →
  logout' [] session w1 = (inr (r, ops2), w2) →
  cookies_deleted ops2 = cookies_set ops1
  ∧ cookies_set ops2 = []
  ∧ status_code r = 204.
Proof.
  unfold login, logout.
  destruct (negb _); [done|].
  cbv [mbind Eff_bind mret Eff_ret].
  destruct (verify_credentials _ _ _ w) as [[e|record] w'];
    [done|].
  destruct (session_create _ _ w') as [[e|s] w'']; [done|].
  intros [= <- <- <-].
  destruct (session_invalidate _ _) as [[e|[]] w3]; [done|].
  by intros [= <- <- <-].
Qed.

End Auth_facts.

(** * Repeated updates *)

Section Idempotence.

Variable column_defaults : UserProfile.

Lemma email_block_id payload q :
  (∀ e, p_email payload = Some e →
        Some e = email q
        ∨ (email q = Py.or_None (Py.strip (Py.lower e))
           ∧ email_verified_at q = None
           ∧ verify_email_code_hash q = None
           ∧ verify_expires_at q = None
           ∧ verify_requested_at q = None)) →
  match p_email payload with
  | Some e =>
      if bool_decide (Some e ≠ email q) then
        set_verify_requested_at None
          (set_verify_expires_at None
             (set_verify_email_code_hash None
                (set_email_verified_at None
                   (set_email (Py.or_None (Py.strip (Py.lower e))) q))))
      else q
  | None => q
  end = q.
Proof.
  intros Hq. destruct (p_email payload) as [e|]; [|done].
  destruct (Hq e eq_refl) as [Heq|(H1 & H2 & H3 & H4 & H5)].
  - by rewrite bool_decide_false by auto.
  - case_bool_decide; [|done]. destruct q; simpl in *; by subst.
Qed.

Lemma phone_block_id payload q :
  (∀ ph, p_phoneE164 payload = Some ph →
         Some ph = phone_e164 q
         ∨ (phone_e164 q = Py.or_None (Py.strip ph)
            ∧ phone_verified_at q = None
            ∧ verify_phone_code_hash q = None
            ∧ verify_expires_at q = None
            ∧ verify_requested_at q = None)) →
  match p_phoneE164 payload with
  | Some ph =>
      if bool_decide (Some ph ≠ phone_e164 q) then
        set_verify_requested_at None
          (set_verify_expires_at None
             (set_verify_phone_code_hash None
                (set_phone_verified_at None
                   (set_phone_e164 (Py.or_None (Py.strip ph)) q))))
      else q
  | None => q
  end = q.
Proof.
  intros Hq. destruct (p_phoneE164 payload) as [ph|]; [|done].
  destruct (Hq ph eq_refl) as [Heq|(H1 & H2 & H3 & H4 & H5)].
  - by rewrite bool_decide_false by auto.
  - case_bool_decide; [|done]. destruct q; simpl in *; by subst.
Qed.

Lemma assign_id {A} (f : UserProfile → option A)
    (set : option A → UserProfile → UserProfile) (v : option A) q :
  (∀ x, f q = x → set x q = q) →
  (∀ x, v = Some x → f q = Some x) →
  assign_if_present set v q = q.
Proof.
  intros Hset Hv. destruct v as [x|]; [|done]. simpl. by apply Hset, Hv.
Qed.

(** A value of a channel that is present and equal to the stored one is
    kept, and one that differs resets the channel. *)
Lemma assignments_channel ch payload p e :
  p_value ch payload = Some e →
  let p' := update_profile_assignments payload p in
  Some e = value ch p'
  ∨ (value ch p' = Py.or_None (normalise ch e)
     ∧ verified_at ch p' = None
     ∧ code_hash ch p' = None
     ∧ verify_expires_at p' = None
     ∧ verify_requested_at p' = None).
Proof.
  intros He. cbv zeta.
  destruct (decide (Some e = value ch p)) as [Heq|Hne].
  - left. rewrite Heq. symmetry.
    unfold update_profile_assignments. cbv zeta.
    destruct ch; cbn [p_value value] in *.
    + rewrite ?(assign_frame email) by (intros; reflexivity).
      rewrite He, bool_decide_false by auto.
      destruct (p_phoneE164 payload); [case_bool_decide|]; done.
    + rewrite ?(assign_frame phone_e164) by (intros; reflexivity).
      rewrite He.
      destruct (p_email payload) as [e'|];
        [destruct (bool_decide (Some e' ≠ email _))|];
        by rewrite bool_decide_false by auto.
  - right.
    destruct (assignments_reset_channel ch payload p e He Hne)
      as (? & ? & ? & ? & ?). done.
Qed.

Ltac present payload f :=
  let v := fresh "v" in
  let Hv := fresh "Hv" in
  intros v Hv; unfold update_profile_assignments; cbv zeta;
  rewrite Hv; cbn [assign_if_present];
  rewrite ?(assign_frame f) by (intros; reflexivity); reflexivity.

Ltac same_row q :=
  let x := fresh "x" in
  clearbody q; intros x; destruct q; simpl; by intros <-.

Lemma assignments_idem payload p :
  update_profile_assignments payload (update_profile_assignments payload p)
  = update_profile_assignments payload p.
Proof.
  set (q := update_profile_assignments payload p).
  unfold update_profile_assignments at 1. cbv zeta.
  rewrite (email_block_id payload q)
    by (intros e He; apply (assignments_channel Email payload p e He)).
  rewrite (phone_block_id payload q)
    by (intros e He; apply (assignments_channel Phone payload p e He)).
  rewrite (assign_id first_name set_first_name)
    by first [same_row q|subst q; present payload first_name].
  rewrite (assign_id last_name set_last_name)
    by first [same_row q|subst q; present payload last_name].
  rewrite (assign_id display_name set_display_name)
    by first [same_row q|subst q; present payload display_name].
  rewrite (assign_id avatar_url set_avatar_url)
    by first [same_row q|subst q; present payload avatar_url].
  rewrite (assign_id bio set_bio)
    by first [same_row q|subst q; present payload bio].
  rewrite (assign_id timezone set_timezone)
    by first [same_row q|subst q; present payload timezone].
  rewrite (assign_id locale set_locale)
    by first [same_row q|subst q; present payload locale].
  rewrite (assign_id marketing_opt_in set_marketing_opt_in)
    by first [same_row q|subst q; present payload marketing_opt_in].
  rewrite (assign_id notify_prefs set_notify_prefs)
    by first [same_row q|subst q; present payload notify_prefs].
  done.
Qed.

(** X26: [update_profile] is idempotent: repeating a successful update
    with the same input returns the same view and leaves the database as
    the first update left it. *)
Theorem update_profile_idempotent u payload row db out db' :
  accounts db !! u = Some row →
  update_profile column_defaults u payload db = (inr out, db') →
  update_profile column_defaults u payload db' = (inr out, db').
Proof.
  intros Hacc. rewrite (update_profile_run _ _ _ _ _ Hacc). cbv zeta.
  intros [= <- <-].
  rewrite (update_profile_run _ _ _ row) by done. cbv zeta.
  by rewrite seen_stored, stored_twice, assignments_idem.
Qed.

End Idempotence.

(** * One code, one channel *)

Section Channels.

Context {Salt : Type}.
Variable hash_password : Salt → string → string.
Variable verify_password : string → string → bool.
Variable column_defaults : UserProfile.

(** X27: a code requested for one channel is never accepted for the other
    channel: after a successful request, every verification for the other
    channel returns false and changes nothing, whatever the candidate and
    the time. *)
Theorem code_not_accepted_on_other_channel ch now randint salt u v row db :
  accounts db !! u = Some row →
  rate_limited now (seen_profile column_defaults db (row_id row)) = false →
  ∃ db1,
    requestCode hash_password column_defaults ch now randint salt u v db
      = (inr (), db1)
    ∧ ∀ now' code,
        verifyCode verify_password column_defaults (other ch) now' u code db1
        = (inr false, db1).
Proof.
  intros Hacc Hlim.
  destruct (requestCode_ok hash_password column_defaults ch now randint salt
              u v row db Hacc Hlim) as (p1 & -> & _ & Hother & _).
  eexists. split; [reflexivity|].
  apply verifyCode_unusable; [done|]. by left.
Qed.

End Channels.

(** * The further properties on the concrete instance *)

Lemma store_account_not_found_witness :
  get_profile Ex.blank "bob" Ex.db0 = (inl account_not_found, Ex.db0)
  ∧ verifyCode Ex.verify Ex.blank Phone 5 "bob" "000042" Ex.db0
    = (inl account_not_found, Ex.db0).
Proof.
  destruct (store_account_not_found Ex.hash Ex.verify Ex.blank "bob" Ex.db0
              eq_refl) as (Hget & _ & _ & Hverify).
  split; [exact Hget|apply Hverify].
Defined.

Lemma get_profile_read_only_witness :
  ∃ out,
    get_profile Ex.blank "alice" Ex.db0 = (inr out, Ex.db0)
    ∧ o_username out = "alice"
    ∧ profiles (snd (get_profile Ex.blank "alice" Ex.db0)) !! 1 = None.
Proof.
  destruct (get_profile_read_only Ex.blank "alice" Ex.alice Ex.db0 eq_refl)
    as (out & Hrun & Hname & _ & _ & Hnone).
  exists out. split; [exact Hrun|]. split; [exact Hname|].
  exact (proj2 (Hnone eq_refl)).
Defined.

Lemma get_profile_after_update_witness :
  get_profile Ex.blank "alice"
    (snd (update_profile Ex.blank "alice" Ex.new_name Ex.db_verified))
  = update_profile Ex.blank "alice" Ex.new_name Ex.db_verified.
Proof.
  change (update_profile Ex.blank "alice" Ex.new_name Ex.db_verified)
    with (inr (A:=exn)
            (_to_out (mkUserAccount 1 "alice" "member")
               (set_display_name (Some "Alice") Ex.verified)),
          stored Ex.db_verified 1
            (set_display_name (Some "Alice") Ex.verified)).
  apply (get_profile_after_update Ex.blank "alice" Ex.new_name Ex.alice
           Ex.db_verified); reflexivity.
Defined.

Lemma store_frame_witness :
  accounts
    (snd (requestCode Ex.hash Ex.blank Email 1000 42 () "alice" "a@x.com"
            Ex.db_feed))
  = accounts Ex.db_feed
  ∧ notifications
      (snd (requestCode Ex.hash Ex.blank Email 1000 42 () "alice" "a@x.com"
              Ex.db_feed))
    = notifications Ex.db_feed.
Proof.
  destruct (store_frame Ex.hash Ex.verify Ex.blank "alice" Ex.db_feed)
    as (_ & _ & Hrequest & _).
  destruct (Hrequest Email 1000 42 () "a@x.com") as (Ha & Hn & _).
  split; [exact Ha|exact Hn].
Defined.

Lemma update_profile_writes_present_witness :
  ∃ out p',
    update_profile Ex.blank "alice" Ex.new_name Ex.db_verified
      = (inr out, stored Ex.db_verified 1 p')
    ∧ display_name p' = Some "Alice"
    ∧ o_displayName out = Some "Alice".
Proof.
  destruct (update_profile_writes_present Ex.blank "alice" Ex.new_name
              Ex.alice Ex.db_verified eq_refl)
    as (out & p' & Hrun & _ & _ & Hname & _).
  exists out, p'. split; [exact Hrun|]. exact (Hname "Alice" eq_refl).
Defined.

Lemma update_profile_same_value_keeps_verification_witness :
  ∃ out p',
    update_profile Ex.blank "alice" Ex.same_email Ex.db_verified
      = (inr out, stored Ex.db_verified 1 p')
    ∧ email_verified_at p' = Some 500
    ∧ phone_verified_at p' = Some 600.
Proof.
  destruct (update_profile_same_value_keeps_verification Ex.verify Ex.blank
              "alice" Ex.same_email Ex.alice Ex.db_verified eq_refl
              (or_intror eq_refl) (or_introl eq_refl))
    as (out & p' & Hrun & _ & _ & He & Hp & _).
  exists out, p'. split; [exact Hrun|]. split; [exact He|exact Hp].
Defined.


Lemma request_then_verify_witness :
  ∃ db1 db2,
    requestCode Ex.hash Ex.blank Email 1000 42 () "alice" "a@x.com" Ex.db0
      = (inr (), db1)
    ∧ verifyCode Ex.verify Ex.blank Email 900001000 "alice" "000042" db1
      = (inr true, db2)
    ∧ verified_at Email (seen_profile Ex.blank db2 1) = Some 900001000.
Proof.
  destruct (request_then_verify Ex.hash Ex.verify Ex.blank Email 1000
              900001000 42 () "alice" "a@x.com" Ex.alice Ex.db0
              eq_refl eq_refl eq_refl eq_refl)
    as (db1 & Hrun & Hin & _).
  destruct Hin as (db2 & Hverify & Hat); [vm_compute; discriminate|].
  exists db1, db2. split; [exact Hrun|]. split; [exact Hverify|exact Hat].
Defined.

Lemma request_other_channel_invalidates_witness :
  ∃ db1 db2,
    requestCode Ex.hash Ex.blank Email 1000 42 () "alice" "a@x.com" Ex.db0
      = (inr (), db1)
    ∧ requestCode Ex.hash Ex.blank Phone 60001000 7 () "alice" "+15550100"
        db1 = (inr (), db2)
    ∧ verifyCode Ex.verify Ex.blank Email 60002000 "alice" "000042" db2
      = (inr false, db2).
Proof.
  destruct (request_other_channel_invalidates Ex.hash Ex.verify Ex.blank
              Email 1000 60001000 42 () "a@x.com" 7 () "+15550100" "alice"
              Ex.alice Ex.db0 eq_refl eq_refl)
    as (db1 & db2 & H1 & H2 & Hnever); [vm_compute; discriminate|].
  exists db1, db2. split; [exact H1|]. split; [exact H2|apply Hnever].
Defined.

Lemma update_other_channel_invalidates_witness :
  ∃ db1 out db2,
    requestCode Ex.hash Ex.blank Email 1000 42 () "alice" "a@x.com" Ex.db0
      = (inr (), db1)
    ∧ update_profile Ex.blank "alice" Ex.new_phone db1 = (inr out, db2)
    ∧ code_hash Email (seen_profile Ex.blank db2 1) = Some "h:000042"
    ∧ verifyCode Ex.verify Ex.blank Email 2000 "alice" "000042" db2
      = (inr false, db2).
Proof.
  destruct (update_other_channel_invalidates Ex.hash Ex.verify Ex.blank
              Email 1000 42 () "a@x.com" Ex.new_phone "+15550199" "alice"
              Ex.alice Ex.db0 eq_refl eq_refl eq_refl eq_refl)
    as (db1 & out & db2 & H1 & H2 & Hh & Hnever); [discriminate|].
  exists db1, out, db2.
  split; [exact H1|]. split; [exact H2|]. split; [exact Hh|apply Hnever].
Defined.

Lemma verify_success_lifts_cooldown_witness :
  ∃ db'',
    requestCode Ex.hash Ex.blank Phone 2001 7 () "alice" "+15550100"
      (snd (verifyCode Ex.verify Ex.blank Email 2000 "alice" "000042"
              Ex.db_pending))
    = (inr (), db'').
Proof.
  apply (verify_success_lifts_cooldown Ex.hash Ex.verify Ex.blank Email 2000
           "alice" "000042" Ex.alice Ex.db_pending); reflexivity.
Defined.

Lemma update_value_lifts_cooldown_witness :
  ∃ out db',
    update_profile Ex.blank "alice" Ex.new_email Ex.db_pending
      = (inr out, db')
    ∧ ∃ db'',
        requestCode Ex.hash Ex.blank Email 1001 7 () "alice" "b@x.com" db'
        = (inr (), db'').
Proof.
  destruct (update_value_lifts_cooldown Ex.hash Ex.blank Email "alice"
              Ex.new_email "  Alice@Example.org " Ex.alice Ex.db_pending
              eq_refl eq_refl)
    as (out & db' & Hrun & Hafter); [discriminate|].
  exists out, db'. split; [exact Hrun|apply Hafter].
Defined.

Lemma one_pending_invariant_witness :
  one_pending
    (seen_profile Ex.blank
       (snd (requestCode Ex.hash Ex.blank Phone 60001000 7 () "alice"
               "+15550100" Ex.db_pending)) 1).
Proof.
  destruct (one_pending_invariant Ex.hash Ex.verify Ex.blank "alice"
              Ex.alice Ex.db_pending eq_refl) as [_ Hkeep].
  destruct Hkeep as (_ & _ & Hrequest); [right; reflexivity|].
  apply Hrequest.
Defined.

Lemma blank_value_stored_witness :
  (∃ p1,
     requestCode Ex.hash Ex.blank Email 1000 42 () "alice" "   " Ex.db0
       = (inr (), stored Ex.db0 1 p1)
     ∧ value Email p1 = Some EmptyString)
  ∧ ∃ out p',
      update_profile Ex.blank "alice" Ex.blank_email Ex.db_verified
        = (inr out, stored Ex.db_verified 1 p')
      ∧ value Email p' = None.
Proof.
  destruct (blank_value_stored Ex.hash Ex.blank Email 1000 42 () "alice"
              "   " Ex.alice Ex.db0 eq_refl eq_refl) as [Hrequest _].
  destruct (blank_value_stored Ex.hash Ex.blank Email 1000 42 () "alice"
              "   " Ex.alice Ex.db_verified eq_refl eq_refl) as [_ Hupdate].
  split; [exact (Hrequest eq_refl)|].
  apply (Hupdate Ex.blank_email eq_refl). discriminate.
Defined.

Lemma stored_value_normalised_witness :
  ∃ p1 s,
    requestCode Ex.hash Ex.blank Email 1000 42 () "alice" " A@X.com " Ex.db0
      = (inr (), stored Ex.db0 1 p1)
    ∧ value Email p1 = Some s
    ∧ normalise Email s = s.
Proof.
  destruct (stored_value_normalised Ex.hash Ex.blank Email 1000 42 ()
              "alice" " A@X.com " Ex.alice Ex.db0 eq_refl) as [Hrequest _].
  exact (Hrequest eq_refl).
Defined.

Lemma generate_code_format_witness :
  String.length (_generate_code 42) = 6%nat
  ∧ Py.all Py.isdigit (_generate_code 42) = true
  ∧ Py.int (_generate_code 42) = Some 42.
Proof.
  destruct (generate_code_format 42) as (Hlen & Hdigits & Hint & _);
    [lia|].
  split; [exact Hlen|]. split; [exact Hdigits|exact Hint].
Defined.

Lemma notifications_account_not_found_witness :
  list_notifications (mkSessionInfo "t" "carol" "member") Ex.db_notes
  = (inl (HTTPException 404 "Account not found"), Ex.db_notes).
Proof.
  exact (proj1 (notifications_account_not_found
                  (mkSessionInfo "t" "carol" "member") Ex.db_notes eq_refl)).
Defined.

Lemma mark_notification_read_not_found_witness :
  mark_notification_read 7000 "100" Ex.session Ex.db_notes
  = (inl (HTTPException 404 "Notification not found"), Ex.db_notes).
Proof.
  apply (mark_notification_read_not_found 7000 "100" Ex.session Ex.alice
           Ex.db_notes); [reflexivity|].
  apply (proj1 (Forall_forall
                  (λ n, n_id n = "100" → n_user_id n ≠ row_id Ex.alice) _)).
  apply (bool_decide_unpack (Forall _ _)). vm_compute. exact I.
Defined.

Lemma mark_notification_read_marks_witness :
  ∃ db',
    mark_notification_read 7000 "001" Ex.session Ex.db_notes
      = (inr (mkResponse 204), db')
    ∧ accounts db' = accounts Ex.db_notes
    ∧ n_read_at <$> notifications db'
      = [None; Some 7000; None; None; None].
Proof.
  destruct (mark_notification_read_marks 7000 "001" Ex.session Ex.alice
              Ex.db_notes (Ex.note 1 1) eq_refl)
    as (db' & Hrun & Hacc & _); [|reflexivity..|].
  { apply list_elem_of_lookup. exists 1%nat. reflexivity. }
  exists db'. split; [exact Hrun|]. split; [exact Hacc|].
  exact (f_equal (λ r, n_read_at <$> notifications (snd r)) (eq_sym Hrun)).
Defined.

Lemma list_after_mark_witness :
  ∃ items db',
    list_notifications Ex.session Ex.db_notes
      = (inr (mkNotificationList items), Ex.db_notes)
    ∧ mark_notification_read 7000 "001" Ex.session Ex.db_notes
      = (inr (mkResponse 204), db')
    ∧ (λ o, (no_id o, no_readAt o))
        <$> l_notifications
              (match fst (list_notifications Ex.session db') with
               | inr l => l
               | inl _ => mkNotificationList []
               end)
      = [("002", None); ("001", Some 7000); ("000", None)].
Proof.
  destruct (list_after_mark 7000 "001" Ex.session Ex.alice Ex.db_notes
              (Ex.note 1 1) eq_refl)
    as (items & db' & Hlist & Hmark & Hafter & _); [| |reflexivity..|].
  { apply (bool_decide_unpack (NoDup _)). vm_compute. exact I. }
  { apply list_elem_of_lookup. exists 1%nat. reflexivity. }
  exists items, db'. split; [exact Hlist|]. split; [exact Hmark|].
  rewrite Hafter. cbn [fst l_notifications].
  injection Hlist as <-. reflexivity.
Defined.

Lemma mark_notification_read_again_witness :
  ∃ db1 db2,
    mark_notification_read 7000 "001" Ex.session Ex.db_notes
      = (inr (mkResponse 204), db1)
    ∧ mark_notification_read 8000 "001" Ex.session db1
      = (inr (mkResponse 204), db2)
    ∧ mark_notification_read 8000 "001" Ex.session Ex.db_notes
      = (inr (mkResponse 204), db2).
Proof.
  apply (mark_notification_read_again 7000 8000 "001" Ex.session Ex.alice
           Ex.db_notes (Ex.note 1 1)); [reflexivity| |reflexivity..].
  apply list_elem_of_lookup. exists 1%nat. reflexivity.
Defined.

Lemma list_notifications_all_witness :
  ∃ items,
    list_notifications Ex.session Ex.db_notes
      = (inr (mkNotificationList items), Ex.db_notes)
    ∧ items
      ≡ₚ to_NotificationOut
           <$> where_user_id 1 (notifications Ex.db_notes).
Proof.
  apply (list_notifications_all Ex.session Ex.alice Ex.db_notes);
    [reflexivity|].
  vm_compute. lia.
Defined.

Lemma blank_username_rejected_witness :
  signup (list string) Ex.create_member Ex.record_signup Ex.record_signup
    (mkSignupPayload "  " "pw1") []
  = (inl empty_username, []).
Proof.
  apply (proj1 (blank_username_rejected (list string) 30 Ex.create_member
                  Ex.verify_credentials Ex.record_signup Ex.session_create
                  Ex.record_signup "  " eq_refl)).
Defined.

Lemma login_sets_cookies_witness :
  ∃ body,
    login (list string) 30 Ex.verify_credentials Ex.session_create
      Ex.credentials [] []
    = (inr (body,
            [set_cookie "session_token" "tok-alice" true "lax" 1800;
             set_cookie "session_role" "admin" false "lax" 1800]),
       ["tok-alice"])
    ∧ lr_message body = "Welcome back, admin!".
Proof.
  destruct (login_sets_cookies (list string) 30 Ex.verify_credentials
              Ex.session_create Ex.credentials []
              (mkUserRecord "alice" "admin")
              (mkSessionInfo "tok-alice" "alice" "admin") [] []
              ["tok-alice"])
    as (body & Hrun & _ & _ & _ & Hadmin & _);
    [discriminate|reflexivity..|].
  exists body. split; [exact Hrun|exact (Hadmin eq_refl)].
Defined.

Lemma logout_deletes_login_cookies_witness :
  cookies_deleted
    (snd (match fst (logout (list string) Ex.session_invalidate []
                       (mkSessionInfo "tok-alice" "alice" "admin")
                       ["tok-alice"]) with
          | inr r => r
          | inl _ => (mkResponse 0, [])
          end))
  = ["session_token"; "session_role"].
Proof.
  destruct (logout_deletes_login_cookies (list string) 30
              Ex.verify_credentials Ex.session_create Ex.session_invalidate
              Ex.credentials (mkSessionInfo "tok-alice" "alice" "admin")
              (mkLoginResponse "tok-alice" "admin" "alice"
                 "Welcome back, admin!")
              [set_cookie "session_token" "tok-alice" true "lax" 1800;
               set_cookie "session_role" "admin" false "lax" 1800]
              (mkResponse 204)
              [delete_cookie "session_token"; delete_cookie "session_role"]
              [] ["tok-alice"] [] eq_refl eq_refl) as (Hnames & _).
  exact Hnames.
Defined.

Lemma update_profile_idempotent_witness :
  update_profile Ex.blank "alice" Ex.reformatted_email
    (snd (update_profile Ex.blank "alice" Ex.reformatted_email
            Ex.db_verified))
  = update_profile Ex.blank "alice" Ex.reformatted_email Ex.db_verified.
Proof.
  change (update_profile Ex.blank "alice" Ex.reformatted_email
            Ex.db_verified)
    with (inr (A:=exn)
            (_to_out (mkUserAccount 1 "alice" "member")
               (set_email_verified_at None Ex.verified)),
          stored Ex.db_verified 1 (set_email_verified_at None Ex.verified)).
  apply (update_profile_idempotent Ex.blank "alice" Ex.reformatted_email
           Ex.alice Ex.db_verified); reflexivity.
Defined.

Lemma code_not_accepted_on_other_channel_witness :
  ∃ db1,
    requestCode Ex.hash Ex.blank Email 1000 42 () "alice" "a@x.com" Ex.db0
      = (inr (), db1)
    ∧ verifyCode Ex.verify Ex.blank Phone 2000 "alice" "000042" db1
      = (inr false, db1).
Proof.
  destruct (code_not_accepted_on_other_channel Ex.hash Ex.verify Ex.blank
              Email 1000 42 () "alice" "a@x.com" Ex.alice Ex.db0
              eq_refl eq_refl) as (db1 & Hrun & Hnever).
  exists db1. split; [exact Hrun|apply Hnever].
Defined.
